(** * Gachacha: the card carousel, its settings store and its gesture hook

    A shallow embedding of the TypeScript sources of the webapp
    (context/AppContext.tsx, hooks/useGestureControl.ts, pages/HomePage.tsx,
    pages/SettingsPage.tsx) and the properties of its specification.

    Numbers.  A JavaScript [number] that holds a count, an index or an id is
    an integer [Z]; one that holds an angle, a length or a coordinate is a
    real [R], with the arithmetic of the source read exactly.  The
    properties that quantify over every angle or every palm position are
    statements about that exact arithmetic.  The engine that runs the code
    rounds every operation to IEEE-754 binary64; the speed computed from
    the palm position, for which exact values at given inputs are
    specified, is evaluated in binary64 as well (module [Binary64]); the
    sine and cosine of the placement are left to the reals. *)

From Stdlib Require Import ZArith List String Ascii Bool Lia FinFun.
From Stdlib Require Import Reals Lra Zfloor DecimalString.
From Stdlib Require Floats.
Import ListNotations.

(* ================================================================== *)
(** * Part I: the program *)
(* ================================================================== *)

(** ** The JavaScript primitives the sources call *)

Module JS.

Local Open Scope Z_scope.

(** [Array.from({ length: len }, (_, i) => f i)]: a length that is not
    positive gives the empty array. *)
Definition Array_from {A : Type} (len : Z) (f : Z -> A) : list A :=
  map (fun i : nat => f (Z.of_nat i)) (seq 0 (Z.to_nat len)).

(** [arr.length] as a number. *)
Definition len {A : Type} (l : list A) : Z := Z.of_nat (List.length l).

(** [arr.slice(0, e)]: a negative [e] counts from the end of the array, and
    the end is clamped to the array. *)
Definition slice0 {A : Type} (l : list A) (e : Z) : list A :=
  let k := if e <? 0 then Z.max (len l + e) 0 else Z.min e (len l) in
  firstn (Z.to_nat k) l.

(** [arr.filter((x, i) => p x i)], the index counted from [i]. *)
Fixpoint filter_from {A : Type} (p : A -> Z -> bool) (i : Z) (l : list A)
  : list A :=
  match l with
  | [] => []
  | x :: t =>
      if p x i then x :: filter_from p (i + 1) t else filter_from p (i + 1) t
  end.

Definition filter_index {A : Type} (p : A -> Z -> bool) (l : list A) : list A :=
  filter_from p 0 l.

(** [arr[i]]: [None] stands for [undefined]. *)
Definition index {A : Type} (l : list A) (i : Z) : option A :=
  if i <? 0 then None else nth_error l (Z.to_nat i).

(** The decimal text of an integer, as a template literal prints it. *)
Definition String_of_number (n : Z) : string :=
  NilZero.string_of_int (Z.to_int n).

(** [Math.max] and [Math.min] on integers. *)
Definition Math_max (a b : Z) : Z := Z.max a b.
Definition Math_min (a b : Z) : Z := Z.min a b.

Local Open Scope R_scope.

(** [Math.trunc]: the integer part, rounded toward zero. *)
Definition trunc (x : R) : Z :=
  if Rle_dec 0 x then Zfloor x else Zceil x.

(** [a % b] on numbers: the remainder of the division truncated toward
    zero; it has the sign of [a]. *)
Definition rem (a b : R) : R := a - b * IZR (trunc (a / b)).

(** [Math.round]: the nearest integer, a half rounded up. *)
Definition Math_round (x : R) : Z := Zfloor (x + 1 / 2).

(** [a > b] and [a < b] as booleans. *)
Definition gtb (a b : R) : bool := if Rlt_dec b a then true else false.
Definition ltb (a b : R) : bool := if Rlt_dec a b then true else false.

End JS.

(** ** context/AppContext.tsx *)

Module AppContext.

Local Open Scope Z_scope.

Record CardContent : Type := mkCard { id : Z; text : string }.

(** [AppSettings].  The interface lists three fields; the pages also read
    and write [deleteDrawnCard], which the object spread carries along, so
    the record has it as a field that may be absent. *)
Record AppSettings : Type := mkSettings {
  cardAmount : Z;
  cardContents : list CardContent;
  moveSpeed : R;
  deleteDrawnCard : option bool
}.

(** [Partial<AppSettings>]: every field may be absent.  For
    [deleteDrawnCard] a key that is present may still hold [undefined]. *)
Record PartialSettings : Type := mkPartial {
  newCardAmount : option Z;
  newCardContents : option (list CardContent);
  newMoveSpeed : option R;
  newDeleteDrawnCard : option (option bool)
}.

(** The entry that both the load path and [updateSettings] synthesize at
    position [k]: [{ id: k, text: `Lucky Card ${k + 1}` }]. *)
Definition luckyCard (k : Z) : CardContent :=
  mkCard k ("Lucky Card " ++ JS.String_of_number (k + 1))%string.

Definition defaultCardContents : list CardContent :=
  JS.Array_from 10 luckyCard.

Definition defaultSettings : AppSettings :=
  mkSettings 10 defaultCardContents 1%R None.

(** What [localStorage.getItem('gachacha-settings')] holds.  The text of an
    item is kept abstract: an item is either the JSON text of a settings
    record, which [JSON.parse] gives back, or some other text, on which
    [JSON.parse] (or the read of [parsed.cardContents.length]) throws. *)
Inductive StoredItem : Type :=
| Saved (s : AppSettings)
| Garbage (raw : string).

Definition Storage : Type := option StoredItem.

Inductive Exn : Type := SyntaxError.

Definition JSON_parse (item : StoredItem) : Exn + AppSettings :=
  match item with
  | Saved s => inr s
  | Garbage _ => inl SyntaxError
  end.

Definition JSON_stringify (s : AppSettings) : StoredItem := Saved s.

(** The body of the [try] block of the state initializer. *)
Definition parseStored (item : StoredItem) : Exn + AppSettings :=
  match JSON_parse item with
  | inl e => inl e
  | inr parsed =>
      if JS.len (cardContents parsed) <? cardAmount parsed then
        let additional :=
          JS.Array_from (cardAmount parsed - JS.len (cardContents parsed))
            (fun i => luckyCard (JS.len (cardContents parsed) + i)) in
        inr (mkSettings (cardAmount parsed)
               (cardContents parsed ++ additional)
               (moveSpeed parsed) (deleteDrawnCard parsed))
      else inr parsed
  end.

(** The initializer of the [settings] state: the load path. *)
Definition loadSettings (stored : Storage) : AppSettings :=
  match stored with
  | Some item =>
      match parseStored item with
      | inr settings => settings
      | inl _ => defaultSettings
      end
  | None => defaultSettings
  end.

(** The effect that follows every change of [settings]. *)
Definition saveSettings (s : AppSettings) : Storage := Some (JSON_stringify s).

(** [{ ...prev, ...newSettings }] *)
Definition spread (prev : AppSettings) (newSettings : PartialSettings)
  : AppSettings :=
  mkSettings
    (match newCardAmount newSettings with Some n => n | None => cardAmount prev end)
    (match newCardContents newSettings with
     | Some c => c | None => cardContents prev end)
    (match newMoveSpeed newSettings with Some v => v | None => moveSpeed prev end)
    (match newDeleteDrawnCard newSettings with
     | Some b => b | None => deleteDrawnCard prev end).

Definition withCardContents (s : AppSettings) (c : list CardContent)
  : AppSettings :=
  mkSettings (cardAmount s) c (moveSpeed s) (deleteDrawnCard s).

Definition updateSettings (prev : AppSettings) (newSettings : PartialSettings)
  : AppSettings :=
  let updated := spread prev newSettings in
  match newCardAmount newSettings with
  | Some amount =>
      if negb (amount =? cardAmount prev) then
        if amount >? JS.len (cardContents prev) then
          let additional :=
            JS.Array_from (amount - JS.len (cardContents prev))
              (fun i => luckyCard (JS.len (cardContents prev) + i)) in
          withCardContents updated (cardContents prev ++ additional)
        else
          withCardContents updated (JS.slice0 (cardContents prev) amount)
      else updated
  | None => updated
  end.

End AppContext.

(** ** pages/SettingsPage.tsx *)

Module SettingsPage.

Import AppContext.
Local Open Scope Z_scope.

(** The local state of the form. *)
Record Local : Type := mkLocal {
  localCardAmount : Z;
  localMoveSpeed : R;
  localCardContents : list CardContent;
  localDeleteDrawnCard : option bool
}.

(** The initial values of the four [useState] hooks. *)
Definition open (settings : AppSettings) : Local :=
  mkLocal (cardAmount settings) (moveSpeed settings)
          (cardContents settings) (deleteDrawnCard settings).

Definition handleCardAmountChange (l : Local) (amount : Z) : Local :=
  let validAmount := JS.Math_max 3 (JS.Math_min 20 amount) in
  let contents :=
    if validAmount >? JS.len (localCardContents l) then
      localCardContents l ++
        JS.Array_from (validAmount - JS.len (localCardContents l))
          (fun i => luckyCard (JS.len (localCardContents l) + i))
    else JS.slice0 (localCardContents l) validAmount in
  mkLocal validAmount (localMoveSpeed l) contents (localDeleteDrawnCard l).

(** [updated[index] = { ...updated[index], text }] at a position of the
    list. *)
Fixpoint setText (l : list CardContent) (i : nat) (t : string)
  : list CardContent :=
  match l, i with
  | [], _ => []
  | c :: rest, O => mkCard (id c) t :: rest
  | c :: rest, S j => c :: setText rest j t
  end.

(** The form has an input for each entry of the list and calls the handler
    with the position of an input.  At a position beyond the list the
    assignment would leave an entry without an id, which is no
    [CardContent]: [None]. *)
Definition handleCardContentChange (l : Local) (i : nat) (t : string)
  : option Local :=
  match nth_error (localCardContents l) i with
  | Some _ =>
      Some (mkLocal (localCardAmount l) (localMoveSpeed l)
                    (setText (localCardContents l) i t)
                    (localDeleteDrawnCard l))
  | None => None
  end.

Definition handleSave (settings : AppSettings) (l : Local) : AppSettings :=
  updateSettings settings
    (mkPartial (Some (localCardAmount l)) (Some (localCardContents l))
               (Some (localMoveSpeed l)) (Some (localDeleteDrawnCard l))).

(** Reset to Default: the list is rebuilt with the current local amount
    before the amount goes back to 10. *)
Definition handleReset (l : Local) : Local :=
  let defaultContents := JS.Array_from (localCardAmount l) luckyCard in
  mkLocal 10 1%R defaultContents (Some false).

End SettingsPage.

(** ** hooks/useGestureControl.ts *)

Module UseGestureControl.

Local Open Scope R_scope.

Record NormalizedLandmark : Type := mkLandmark { x : R; y : R; z : R }.

Record GestureData : Type := mkGesture {
  handDetected : bool;
  palmX : R;
  isPinching : bool;
  gestureSpeed : R
}.

Definition calculateDistance (point1 point2 : NormalizedLandmark) : R :=
  let dx := x point1 - x point2 in
  let dy := y point1 - y point2 in
  let dz := z point1 - z point2 in
  sqrt (dx * dx + dy * dy + dz * dz).

(** Reading a field of [landmarks[i]] throws when the array has no such
    entry; [None] is that exception. *)
Definition bind {A B : Type} (m : option A) (k : A -> option B) : option B :=
  match m with
  | Some a => k a
  | None => None
  end.

Notation "p <- m ;; k" := (bind m (fun p => k))
  (at level 61, m at next level, right associativity).

Definition sum (l : list R) : R := fold_left Rplus l 0.

(** [Math.max(...l)] for an array that is not empty. *)
Definition Math_max_of (first : R) (rest : list R) : R :=
  fold_left Rmax rest first.

Definition count_true (l : list bool) : nat := List.length (filter (fun b => b) l).

Definition detectHandClosure (landmarks : list NormalizedLandmark)
  : option bool :=
  l4 <- JS.index landmarks 4 ;;
  l8 <- JS.index landmarks 8 ;;
  l12 <- JS.index landmarks 12 ;;
  l9 <- JS.index landmarks 9 ;;
  l16 <- JS.index landmarks 16 ;;
  l20 <- JS.index landmarks 20 ;;
  l6 <- JS.index landmarks 6 ;;
  l10 <- JS.index landmarks 10 ;;
  l14 <- JS.index landmarks 14 ;;
  l18 <- JS.index landmarks 18 ;;
  (* 1. thumb and index pinched *)
  let thumbIndexPinch := JS.ltb (calculateDistance l4 l8) 0.06 in
  (* 2. thumb and middle finger pinched *)
  let thumbMiddlePinch := JS.ltb (calculateDistance l4 l12) 0.06 in
  (* 3. fist: the fingertips close to the palm centre *)
  let palmCenter := l9 in
  let fingertips := [l8; l12; l16; l20] in
  let fingertipDistances :=
    map (fun tip => calculateDistance tip palmCenter) fingertips in
  let averageFingertipDistance :=
    sum fingertipDistances / INR (List.length fingertipDistances) in
  let isFist := JS.ltb averageFingertipDistance 0.12 in
  (* 4. finger curl: tip below its middle joint *)
  let indexCurled := JS.gtb (y l8) (y l6) in
  let middleCurled := JS.gtb (y l12) (y l10) in
  let ringCurled := JS.gtb (y l16) (y l14) in
  let pinkyCurled := JS.gtb (y l20) (y l18) in
  let curledFingerCount :=
    count_true [indexCurled; middleCurled; ringCurled; pinkyCurled] in
  let mostFingersCurled := Nat.leb 3 curledFingerCount in
  (* 5. all fingertips close together *)
  let allFingertips := [l4; l8; l12; l16; l20] in
  let n := INR (List.length allFingertips) in
  let centroid :=
    mkLandmark (sum (map x allFingertips) / n)
               (sum (map y allFingertips) / n)
               (sum (map z allFingertips) / n) in
  let maxDistanceFromCentroid :=
    Math_max_of (calculateDistance l4 centroid)
      (map (fun tip => calculateDistance tip centroid) [l8; l12; l16; l20]) in
  let allFingersTogether := JS.ltb maxDistanceFromCentroid 0.08 in
  Some (thumbIndexPinch || thumbMiddlePinch || isFist
        || mostFingersCurled || allFingersTogether)%bool.

Definition calculateGestureSpeed (palmX : R) : R :=
  let deadZone := 0.05 in
  let maxRange := 0.45 in
  if JS.gtb palmX (0.5 + deadZone) then
    let intensity := (palmX - (0.5 + deadZone)) / maxRange in
    Rmin 1 intensity
  else if JS.ltb palmX (0.5 - deadZone) then
    let intensity := (0.5 - deadZone - palmX) / maxRange in
    - Rmin 1 intensity
  else 0.

(** The canvas behind [canvasRef]: its size and whether [getContext('2d')]
    gives a context.  The pixels drawn on it are not part of the model. *)
Record Canvas : Type := mkCanvas {
  width : Z;
  height : Z;
  has2dContext : bool
}.

(** A detection result: [multiHandLandmarks] may be absent, and lists the
    landmarks of each detected hand. *)
Record Results : Type := mkResults {
  multiHandLandmarks : option (list (list NormalizedLandmark))
}.

(** The state the callback reads and writes. *)
Record Hook : Type := mkHook {
  canvasRef : option Canvas;
  currentGesture : GestureData
}.

Definition initialGesture : GestureData := mkGesture false 0.5 false 0.

(** What one call of [onResults] does: it returns before anything else
    when there is no canvas or no context ([Dropped]); it throws on a hand
    with a landmark missing ([Threw]); otherwise it stores the gesture and
    hands it to [onGestureUpdate] ([Emitted]). *)
Inductive Outcome : Type :=
| Dropped
| Threw
| Emitted (h : Hook) (gestureData : GestureData).

(** The pairs of landmarks joined by the drawn connections. *)
Definition connections : list (Z * Z) :=
  [ (0, 1); (1, 2); (2, 3); (3, 4);
    (0, 5); (5, 6); (6, 7); (7, 8);
    (0, 9); (9, 10); (10, 11); (11, 12);
    (0, 13); (13, 14); (14, 15); (15, 16);
    (0, 17); (17, 18); (18, 19); (19, 20);
    (5, 9); (9, 13); (13, 17) ]%Z.

(** Drawing the connections reads both ends of each pair. *)
Definition drawConnections (landmarks : list NormalizedLandmark) : option unit :=
  fold_left
    (fun acc c =>
       _ <- acc ;;
       _ <- JS.index landmarks (fst c) ;;
       _ <- JS.index landmarks (snd c) ;;
       Some tt)
    connections (Some tt).

Definition gestureOfHand (landmarks : list NormalizedLandmark)
  : option GestureData :=
  l0 <- JS.index landmarks 0 ;;
  l5 <- JS.index landmarks 5 ;;
  l9 <- JS.index landmarks 9 ;;
  l13 <- JS.index landmarks 13 ;;
  l17 <- JS.index landmarks 17 ;;
  let palmX := (x l0 + x l5 + x l9 + x l13 + x l17) / 5 in
  isPinching <- detectHandClosure landmarks ;;
  let gestureSpeed := calculateGestureSpeed palmX in
  _ <- drawConnections landmarks ;;
  Some (mkGesture true palmX isPinching gestureSpeed).

Definition onResults (h : Hook) (results : Results) : Outcome :=
  match canvasRef h with
  | None => Dropped
  | Some canvas =>
      if negb (has2dContext canvas) then Dropped
      else
        let canvas :=
          if ((width canvas =? 0) || (height canvas =? 0))%Z%bool
          then mkCanvas 640 480 (has2dContext canvas)
          else canvas in
        match multiHandLandmarks results with
        | Some (landmarks :: _) =>
            match gestureOfHand landmarks with
            | Some gestureData =>
                Emitted (mkHook (Some canvas) gestureData) gestureData
            | None => Threw
            end
        | _ => Emitted (mkHook (Some canvas) initialGesture) initialGesture
        end
  end.

End UseGestureControl.

(** ** The same speed computation as the engine runs it, in binary64 *)

Module Binary64.

Import Floats.
Local Open Scope float_scope.

(** [Math.min] on two numbers: [NaN] if either is, and [-0] below [+0]. *)
Definition Math_min (a b : float) : float :=
  if (is_nan a || is_nan b)%bool then nan
  else if a <? b then a
  else if b <? a then b
  else if (is_zero a && get_sign a)%bool then a else b.

#[warnings="-inexact-float"]
Definition calculateGestureSpeed (palmX : float) : float :=
  let deadZone := 0.05 in
  let maxRange := 0.45 in
  if 0.5 + deadZone <? palmX then
    let intensity := (palmX - (0.5 + deadZone)) / maxRange in
    Math_min 1 intensity
  else if palmX <? 0.5 - deadZone then
    let intensity := (0.5 - deadZone - palmX) / maxRange in
    - Math_min 1 intensity
  else 0.

(** The ends of the dead zone as the code computes them. *)
#[warnings="-inexact-float"]
Definition deadZoneLeft : float := 0.5 - 0.05.

#[warnings="-inexact-float"]
Definition deadZoneRight : float := 0.5 + 0.05.

End Binary64.

(** ** [handleConfirm] in binary64 *)

(** The arithmetic of [handleConfirm] as JavaScript runs it, on IEEE-754
    doubles: [+] and [/] are the kernel's correctly rounded operations; [%]
    and [Math.round], which are exact, are computed on the integers a
    double stands for. *)
Module Binary64Page.

Import Floats.
Local Open Scope float_scope.

(** A finite double is [m * 2^e] for the pair [(m, e)] of integers that
    [decode] gives; an infinity and [NaN] have none. *)
Definition decode (f : float) : option (Z * Z) :=
  match Prim2SF f with
  | S754_zero _ => Some (0, 0)%Z
  | S754_finite s m e => Some (if s then Z.neg m else Z.pos m, e)
  | _ => None
  end.

(** The double nearest to [m * 2^e], which is that number where it is a
    double; [negative] is the sign of a zero. *)
Definition encode (m e : Z) (negative : bool) : float :=
  SF2Prim (binary_normalize prec emax m e negative).


(** [x % y]: the remainder of the truncated division, computed without
    rounding, with the sign of [x]; [NaN] when [x] is not finite or [y] is
    zero or [NaN], and [x] when [y] is infinite. *)
Definition rem (x y : float) : float :=
  if (is_nan x || is_nan y || is_infinity x || is_zero y)%bool then nan
  else if is_infinity y then x
  else
    match decode x, decode y with
    | Some (mx, ex), Some (my, ey) =>
        let e := Z.min ex ey in
        encode (Z.rem (mx * 2 ^ (ex - e)) (my * 2 ^ (ey - e))) e (get_sign x)
    | _, _ => nan
    end.

(** [Math.round]: the whole number nearest to [x], a half going upwards;
    a double without a fraction, an infinity and [NaN] are returned as
    they are. *)
Definition Math_round (x : float) : float :=
  match Prim2SF x with
  | S754_finite s m e =>
      if (0 <=? e)%Z then x
      else
        let sm := if s then Z.neg m else Z.pos m in
        encode ((2 * sm + 2 ^ (- e)) / 2 ^ (- e + 1)) 0 s
  | _ => x
  end.

Definition normalizedRotation (rotation : float) : float :=
  rem (rem rotation 360 + 360) 360.

(** The index computed by [handleConfirm]. *)
Definition centeredCardIndex (rotation cardAmount : float) : float :=
  let anglePerCard := 360 / cardAmount in
  rem (Math_round (normalizedRotation rotation / anglePerCard)) cardAmount.





End Binary64Page.

(** ** pages/HomePage.tsx *)

Module HomePage.

Import AppContext.
Import UseGestureControl.
Local Open Scope R_scope.

(** The state of the page: the [useState] cells and the
    [lastPinchStateRef] cell.  The version of the page without gesture
    control has the same [handleConfirm], [handleCardClick], [handleReset]
    and card placement, and none of the gesture cells. *)
Record State : Type := mkState {
  rotation : R;
  isMoving : bool;
  selectedCard : option Z;
  flippedCard : option Z;
  direction : Z;
  gestureEnabled : bool;
  gestureSpeedCell : R;
  lastPinchState : bool
}.

Definition initialState : State :=
  mkState 0 true None None 1 false 0 false.

(** The handlers the page calls on itself, logged by the callers that
    invoke them. *)
Inductive Call : Type := CallHandleConfirm.

(** [((rotation % 360) + 360) % 360] *)
Definition normalizedRotation (rotation : R) : R :=
  JS.rem (JS.rem rotation 360 + 360) 360.

(** The index computed by [handleConfirm]: the card closest to the centre. *)
Definition centeredCardIndex (rotation : R) (cardAmount : Z) : Z :=
  let anglePerCard := 360 / IZR cardAmount in
  Z.rem (JS.Math_round (normalizedRotation rotation / anglePerCard)) cardAmount.

Definition handleConfirm (settings : AppSettings) (st : State) : State :=
  mkState (rotation st) false
          (Some (centeredCardIndex (rotation st) (cardAmount settings)))
          (flippedCard st) (direction st) (gestureEnabled st)
          (gestureSpeedCell st) (lastPinchState st).

Definition isNull (o : option Z) : bool :=
  match o with None => true | Some _ => false end.

Definition handleGestureUpdate (settings : AppSettings) (st : State)
    (gesture : GestureData) : State * list Call :=
  if (negb (gestureEnabled st) || negb (isNull (selectedCard st)))%bool
  then (st, [])
  else
    (* setGestureSpeed *)
    let st1 :=
      mkState (rotation st) (isMoving st) (selectedCard st) (flippedCard st)
              (direction st) (gestureEnabled st) (gestureSpeed gesture)
              (lastPinchState st) in
    (* setDirection *)
    let st2 :=
      if JS.gtb (Rabs (gestureSpeed gesture)) 0.1 then
        mkState (rotation st1) (isMoving st1) (selectedCard st1)
                (flippedCard st1)
                (if JS.gtb (gestureSpeed gesture) 0 then 1%Z else (-1)%Z)
                (gestureEnabled st1) (gestureSpeedCell st1)
                (lastPinchState st1)
      else st1 in
    (* the pinch started: select the card *)
    let '(st3, calls) :=
      if (isPinching gesture && negb (lastPinchState st2))%bool
      then (handleConfirm settings st2, [CallHandleConfirm])
      else (st2, []) in
    (mkState (rotation st3) (isMoving st3) (selectedCard st3)
             (flippedCard st3) (direction st3) (gestureEnabled st3)
             (gestureSpeedCell st3) (isPinching gesture),
     calls).

(** The frames of the hook handed to the page one after the other; the
    page is rendered again between two frames, so that each frame finds the
    state left by the frame before.  The calls of each frame are kept
    apart. *)
Fixpoint processFrames (settings : AppSettings) (st : State)
    (frames : list GestureData) : State * list (list Call) :=
  match frames with
  | [] => (st, [])
  | g :: rest =>
      let '(st', calls) := handleGestureUpdate settings st g in
      let '(st'', log) := processFrames settings st' rest in
      (st'', calls :: log)
  end.

Definition optZ_eqb (o : option Z) (i : Z) : bool :=
  match o with Some j => (j =? i)%Z | None => false end.

Definition handleCardClick (st : State) (index : Z) : State :=
  if (isMoving st || isNull (selectedCard st))%bool then st
  else if optZ_eqb (selectedCard st) index then
    mkState (rotation st) (isMoving st) (selectedCard st)
            (if optZ_eqb (flippedCard st) index then None else Some index)
            (direction st) (gestureEnabled st) (gestureSpeedCell st)
            (lastPinchState st)
  else st.

(** [deleteDrawnCard] read as a condition: an absent field is falsy. *)
Definition truthy (o : option bool) : bool :=
  match o with Some b => b | None => false end.

(** Draw Again. *)
Definition handleReset (settings : AppSettings) (st : State)
  : AppSettings * State :=
  let settings' :=
    match selectedCard st with
    | Some selected =>
        if (truthy (deleteDrawnCard settings)
            && (JS.len (cardContents settings) >? 3)%Z)%bool
        then
          (* remove the drawn card from the pool *)
          let updatedContents :=
            JS.filter_index (fun _ i => negb (i =? selected)%Z)
                            (cardContents settings) in
          let newAmount := JS.Math_max 3 (cardAmount settings - 1) in
          updateSettings settings
            (mkPartial (Some newAmount) (Some updatedContents) None None)
        else settings
    | None => settings
    end in
  (settings',
   mkState (rotation st) true None None (direction st) (gestureEnabled st)
           0 false).

(** The radius of the carousel for a window of width [screenWidth]. *)
Definition radius (screenWidth : R) (cardAmount : Z) : R :=
  let baseRadius := screenWidth * 0.25 in
  let cardAmountFactor := Rmax 1 (IZR cardAmount / 10) in
  let minRadius := 200 * cardAmountFactor in
  let maxRadius := 400 * cardAmountFactor in
  Rmin maxRadius (Rmax minRadius (baseRadius * cardAmountFactor)).




End HomePage.

(** ** Notions used to state the properties *)

Module Notions.

Import AppContext.
Local Open Scope Z_scope.

(** The previous list of cards padded or cut to [amount] entries: what the
    two branches of [updateSettings] compute from [prev.cardContents]. *)
Definition resized (prev : list CardContent) (amount : Z) : list CardContent :=
  if amount >? JS.len prev then
    prev ++ JS.Array_from (amount - JS.len prev)
                          (fun i => luckyCard (JS.len prev + i))
  else JS.slice0 prev amount.

(** The settings keep as many cards as [cardAmount] says. *)
Definition inSync (s : AppSettings) : Prop :=
  JS.len (cardContents s) = cardAmount s.

(** A detection result that lists no hand. *)
Definition noHand (results : UseGestureControl.Results) : Prop :=
  UseGestureControl.multiHandLandmarks results = None
  \/ UseGestureControl.multiHandLandmarks results = Some [].

End Notions.

(** ** Concrete settings used by the examples *)

Module Fixtures.

Import AppContext.
Local Open Scope Z_scope.

(** A pool of four cards in sync, with removal of the drawn card on. *)
Definition fourCards : list CardContent :=
  [mkCard 0 "A"; mkCard 1 "B"; mkCard 2 "C"; mkCard 3 "D"].

Definition poolOfFour : AppSettings := mkSettings 4 fourCards 1%R (Some true).

(** A pool of three cards, at the floor. *)
Definition poolOfThree : AppSettings :=
  mkSettings 3 [mkCard 0 "A"; mkCard 1 "B"; mkCard 2 "C"] 1%R (Some true).

(** A stored record that asks for ten cards and lists the six default
    cards with the ids 0 to 5. *)
Definition sixOfTen : AppSettings :=
  mkSettings 10 (map luckyCard [0; 1; 2; 3; 4; 5]) 1%R None.

(** A stored record that asks for ten cards and lists six, with ids
    counted from 1. *)
Definition sixCountedFromOne : AppSettings :=
  mkSettings 10
    [mkCard 1 "A"; mkCard 2 "B"; mkCard 3 "C";
     mkCard 4 "D"; mkCard 5 "E"; mkCard 6 "F"]
    1%R None.

(** A stored record of seven cards in sync. *)
Definition sevenCards : AppSettings :=
  mkSettings 7 (map luckyCard [0; 1; 2; 3; 4; 5; 6]) 2%R (Some false).

(** A stored record that asks for three cards and lists four. *)
Definition fourOfThree : AppSettings := mkSettings 3 fourCards 1%R None.

End Fixtures.

(** ** pages/HomePage.tsx: the animation frame, the pointer and the card size *)

Module Motion.

Import AppContext HomePage.
Local Open Scope R_scope.

(** The speed of one animation frame: the gesture speed when gesture
    control is on and the gesture is strong enough, the automatic speed
    otherwise. *)
Definition frameSpeed (settings : AppSettings) (st : State) : R :=
  if (gestureEnabled st && JS.gtb (Rabs (gestureSpeedCell st)) 0.05)%bool
  then Rabs (gestureSpeedCell st) * 2 * moveSpeed settings
  else 0.5 * moveSpeed settings.

(** One call of [animate], the frame callback of the rotation effect, with
    the time of the frame before in [lastTime]; it gives the state and the
    new [lastTime].  The effect schedules frames only while the carousel is
    moving. *)
Definition animate (settings : AppSettings) (st : State)
    (lastTime currentTime : R) : State * R :=
  if isMoving st then
    let deltaTime := (currentTime - lastTime) / 16.67 in
    let speed := frameSpeed settings st in
    (mkState (rotation st + speed * IZR (direction st) * deltaTime)
             (isMoving st) (selectedCard st) (flippedCard st) (direction st)
             (gestureEnabled st) (gestureSpeedCell st) (lastPinchState st),
     currentTime)
  else (st, lastTime).


(** The frames come in the order of time, the first not before
    [lastTime]. *)
Fixpoint inOrder (lastTime : R) (times : list R) : Prop :=
  match times with
  | [] => True
  | t :: rest => lastTime <= t /\ inOrder t rest
  end.

(** [getBoundingClientRect()] of the card container. *)
Record Rect : Type := mkRect { left : R; rectWidth : R }.

Definition setDirection (st : State) (d : Z) : State :=
  mkState (rotation st) (isMoving st) (selectedCard st) (flippedCard st) d
          (gestureEnabled st) (gestureSpeedCell st) (lastPinchState st).

(** The pointer at [clientX]; [container] is [containerRef.current]. *)
Definition handleMouseMove (st : State) (container : option Rect)
    (clientX : R) : State :=
  match container with
  | None => st
  | Some rect =>
      if (negb (isMoving st) || gestureEnabled st)%bool then st
      else
        let x := clientX - left rect in
        let threshold := 100 in
        if JS.ltb x threshold then setDirection st (-1)
        else if JS.gtb x (rectWidth rect - threshold) then setDirection st 1
        else st
  end.

(** A touch: the handler reads [e.touches[0].clientX] after its guard, and
    throws ([None]) when the list of touches is empty. *)
Definition handleTouchMove (st : State) (container : option Rect)
    (touches : list R) : option State :=
  match container with
  | None => Some st
  | Some rect =>
      if (negb (isMoving st) || gestureEnabled st)%bool then Some st
      else
        match touches with
        | [] => None
        | clientX :: _ => Some (handleMouseMove st (Some rect) clientX)
        end
  end.

(** The size of a card in pixels. *)
Definition cardWidth (cardAmount : Z) : Z :=
  JS.Math_max 120 (160 - cardAmount * 2).

Definition cardHeight (cardAmount : Z) : Z :=
  JS.Math_max 180 (240 - cardAmount * 3).

End Motion.

(** ** The actions of a session *)

Module Session.

Import AppContext.
Local Open Scope Z_scope.

(** What the user can do on the settings form. *)
Inductive FormAction : Type :=
| MoveAmountSlider (amount : Z)
| TypeText (i : nat) (t : string)
| MoveSpeedSlider (speed : R)
| TickDelete (checked : bool)
| PressReset.

Definition formStep (l : SettingsPage.Local) (a : FormAction)
  : SettingsPage.Local :=
  match a with
  | MoveAmountSlider amount => SettingsPage.handleCardAmountChange l amount
  | TypeText i t =>
      match SettingsPage.handleCardContentChange l i t with
      | Some l' => l'
      | None => l
      end
  | MoveSpeedSlider speed =>
      SettingsPage.mkLocal (SettingsPage.localCardAmount l) speed
        (SettingsPage.localCardContents l) (SettingsPage.localDeleteDrawnCard l)
  | TickDelete checked =>
      SettingsPage.mkLocal (SettingsPage.localCardAmount l)
        (SettingsPage.localMoveSpeed l) (SettingsPage.localCardContents l)
        (Some checked)
  | PressReset => SettingsPage.handleReset l
  end.

(** The form after a list of actions, the first action first. *)
Definition formRun (l : SettingsPage.Local) (actions : list FormAction)
  : SettingsPage.Local :=
  fold_left formStep actions l.

(** What changes the settings: the settings page opened, used and saved;
    Draw Again on the home page in some state of the page; the page loaded
    again from what was saved. *)
Inductive AppStep : Type :=
| SaveSettings (actions : list FormAction)
| DrawAgain (page : HomePage.State)
| Reload.

Definition appStep (settings : AppSettings) (step : AppStep) : AppSettings :=
  match step with
  | SaveSettings actions =>
      SettingsPage.handleSave settings
        (formRun (SettingsPage.open settings) actions)
  | DrawAgain page => fst (HomePage.handleReset settings page)
  | Reload => loadSettings (saveSettings settings)
  end.

Definition appRun (settings : AppSettings) (steps : list AppStep)
  : AppSettings :=
  fold_left appStep steps settings.

(** Whether a step presses Reset to Default on the settings form. *)
Definition isReset (a : FormAction) : bool :=
  match a with PressReset => true | _ => false end.

Definition pressesReset (step : AppStep) : bool :=
  match step with
  | SaveSettings actions => existsb isReset actions
  | _ => false
  end.

End Session.

(** ** Invariants *)

Module Invariants.

Import AppContext Notions.
Local Open Scope Z_scope.

(** Every card carries its position in the list as its id. *)
Definition positional (l : list CardContent) : Prop :=
  map id l = map Z.of_nat (seq 0 (List.length l)).

(** The settings the app keeps: positional ids, between 3 and 20 cards, an
    amount between 3 and 20, and a list as long as the amount unless the
    amount is 10. *)
Definition healthy (s : AppSettings) : Prop :=
  positional (cardContents s)
  /\ 3 <= cardAmount s <= 20
  /\ 3 <= JS.len (cardContents s) <= 20
  /\ (inSync s \/ cardAmount s = 10).

(** The same for the local state of the settings form. *)
Definition formHealthy (l : SettingsPage.Local) : Prop :=
  positional (SettingsPage.localCardContents l)
  /\ 3 <= SettingsPage.localCardAmount l <= 20
  /\ 3 <= JS.len (SettingsPage.localCardContents l) <= 20
  /\ (JS.len (SettingsPage.localCardContents l)
      = SettingsPage.localCardAmount l
      \/ SettingsPage.localCardAmount l = 10).

(** The form lists as many cards as its amount says. *)
Definition formInSync (l : SettingsPage.Local) : Prop :=
  JS.len (SettingsPage.localCardContents l) = SettingsPage.localCardAmount l.

(** The direction of the carousel is right or left. *)
Definition directed (st : HomePage.State) : Prop :=
  HomePage.direction st = 1 \/ HomePage.direction st = -1.

End Invariants.

(* ================================================================== *)
(** * Part II: the properties *)
(* ================================================================== *)

(** ** Remainder and rounding *)

Section Remainder.

Import HomePage.
Local Open Scope R_scope.

Lemma trunc_nonneg (x : R) :
  0 <= x -> IZR (JS.trunc x) <= x < IZR (JS.trunc x) + 1.
Proof.
  intros Hx. unfold JS.trunc.
  destruct (Rle_dec 0 x) as [_ | Hn]; [apply Zfloor_bound | contradiction].
Qed.

Lemma trunc_neg (x : R) :
  x < 0 -> x <= IZR (JS.trunc x) < x + 1.
Proof.
  intros Hx. unfold JS.trunc.
  destruct (Rle_dec 0 x) as [Hp | _]; [lra |].
  pose proof (Zceil_bound x). lra.
Qed.

(** The remainder of a dividend that is not negative lies in [[0, b)]. *)
Lemma rem_nonneg (a b : R) :
  0 <= a -> 0 < b -> 0 <= JS.rem a b < b.
Proof.
  intros Ha Hb. unfold JS.rem.
  assert (Hq : 0 <= a / b).
  { apply Rmult_le_pos; [assumption |].
    left. apply Rinv_0_lt_compat. assumption. }
  pose proof (trunc_nonneg (a / b) Hq) as [Hlo Hhi].
  assert (Ha' : a = b * (a / b)) by (field; lra).
  split.
  - apply Rmult_le_compat_l with (r := b) in Hlo; lra.
  - apply Rmult_lt_compat_l with (r := b) in Hhi; lra.
Qed.

(** Any remainder lies strictly between [-b] and [b]. *)
Lemma rem_range (a b : R) :
  0 < b -> - b < JS.rem a b < b.
Proof.
  intros Hb.
  destruct (Rle_dec 0 a) as [Ha | Ha].
  - pose proof (rem_nonneg a b Ha Hb). lra.
  - assert (Hlt : a < 0) by lra.
    assert (Hq : a / b < 0).
    { unfold Rdiv. rewrite <- (Rmult_0_l (/ b)).
      apply Rmult_lt_compat_r; [apply Rinv_0_lt_compat |]; assumption. }
    pose proof (trunc_neg (a / b) Hq) as [Hlo Hhi].
    assert (Ha' : a = b * (a / b)) by (field; lra).
    unfold JS.rem. split.
    + apply Rmult_lt_compat_l with (r := b) in Hhi; lra.
    + apply Rmult_le_compat_l with (r := b) in Hlo; lra.
Qed.

Lemma normalizedRotation_range (a : R) : 0 <= normalizedRotation a < 360.
Proof.
  unfold normalizedRotation.
  pose proof (rem_range a 360 ltac:(lra)).
  apply rem_nonneg; lra.
Qed.




(** Rounding a number of [[0, n)] gives an integer of [[0, n]]. *)
Lemma Math_round_range (y : R) (n : Z) :
  0 <= y < IZR n -> (0 <= JS.Math_round y <= n)%Z.
Proof.
  intros [Hlo Hhi]. unfold JS.Math_round.
  pose proof (Zfloor_bound (y + 1 / 2)) as [Hf1 Hf2].
  split.
  - apply Zfloor_lub. simpl. lra.
  - apply Z.lt_succ_r. apply lt_IZR. rewrite succ_IZR. lra.
Qed.

End Remainder.

(** ** Selection: the index of the confirmed card *)

Section Selection.

Import AppContext HomePage.
Local Open Scope R_scope.

(** A dividend [b * k + r] with [k >= 0] and [r] in [[0, b)] has remainder
    [r]. *)
Lemma rem_unique_nonneg (b r : R) (k : Z) :
  0 < b -> 0 <= r < b -> (0 <= k)%Z -> JS.rem (b * IZR k + r) b = r.
Proof.
  intros Hb Hr Hk. unfold JS.rem.
  assert (Hq : (b * IZR k + r) / b = IZR k + r / b) by (field; lra).
  assert (Hrb : 0 <= r / b < 1).
  { split.
    - apply Rmult_le_pos; [lra | left; apply Rinv_0_lt_compat; lra].
    - apply Rmult_lt_reg_r with (r := b); [lra |].
      unfold Rdiv. rewrite Rmult_assoc, Rinv_l; lra. }
  assert (Hk' : 0 <= IZR k) by (apply IZR_le in Hk; simpl in Hk; lra).
  unfold JS.trunc. rewrite Hq.
  destruct (Rle_dec 0 (IZR k + r / b)) as [_ | Hn]; [| lra].
  rewrite (Zfloor_eq k); lra.
Qed.

(** A dividend [b * k + r] with [k <= 0] and [r] in [(-b, 0]] has remainder
    [r]: the remainder takes the sign of the dividend. *)
Lemma rem_unique_nonpos (b r : R) (k : Z) :
  0 < b -> - b < r <= 0 -> (k <= 0)%Z -> JS.rem (b * IZR k + r) b = r.
Proof.
  intros Hb Hr Hk. unfold JS.rem.
  assert (Hq : (b * IZR k + r) / b = IZR k + r / b) by (field; lra).
  assert (Hrb : -1 < r / b <= 0).
  { split.
    - apply Rmult_lt_reg_r with (r := b); [lra |].
      unfold Rdiv. rewrite Rmult_assoc, Rinv_l; lra.
    - apply Rmult_le_reg_r with (r := b); [lra |].
      unfold Rdiv. rewrite Rmult_assoc, Rinv_l; lra. }
  assert (Hk' : IZR k <= 0) by (apply IZR_le in Hk; simpl in Hk; lra).
  unfold JS.trunc. rewrite Hq.
  destruct (Rle_dec 0 (IZR k + r / b)) as [Hp | Hn].
  - rewrite (Zfloor_eq k); lra.
  - rewrite (Zceil_eq k); lra.
Qed.

(** The remainder of a literal dividend [a] by 360, given the quotient [q]
    and the remainder [r] to check. *)
Ltac rem_360 a q r :=
  replace a with (360 * IZR q + r) by (simpl; lra);
  first [ rewrite rem_unique_nonneg by (lra || lia)
        | rewrite rem_unique_nonpos by (lra || lia) ].

Lemma scaled_rotation_range (rotation : R) (cardAmount : Z) :
  (0 < cardAmount)%Z ->
  0 <= normalizedRotation rotation / (360 / IZR cardAmount) < IZR cardAmount.
Proof.
  intros Hn.
  assert (Hn' : 0 < IZR cardAmount) by (apply IZR_lt in Hn; simpl in Hn; lra).
  pose proof (normalizedRotation_range rotation) as [Hlo Hhi].
  assert (Heq : normalizedRotation rotation / (360 / IZR cardAmount)
                = normalizedRotation rotation * IZR cardAmount / 360)
    by (field; lra).
  rewrite Heq. split.
  - apply Rmult_le_pos; [apply Rmult_le_pos |]; lra.
  - apply Rmult_lt_reg_r with (r := 360); [lra |].
    unfold Rdiv. rewrite Rmult_assoc, Rinv_l, Rmult_1_r by lra.
    rewrite (Rmult_comm (IZR cardAmount)).
    apply Rmult_lt_compat_r; lra.
Qed.

Lemma centeredCardIndex_range (rotation : R) (cardAmount : Z) :
  (0 < cardAmount)%Z ->
  (0 <= centeredCardIndex rotation cardAmount < cardAmount)%Z.
Proof.
  intros Hn. unfold centeredCardIndex.
  pose proof (Math_round_range _ _ (scaled_rotation_range rotation _ Hn))
    as [Hlo Hhi].
  apply Z.rem_bound_pos; lia.
Qed.

(** C1.  For every card count from 3 to 20 and every real rotation angle,
    confirming normalizes the angle into [0, 360) and selects an index
    from 0 up to, and not including, the card count; it stops the
    carousel. *)
Theorem confirm_index_in_range (settings : AppSettings) (st : State) :
  (3 <= cardAmount settings <= 20)%Z ->
  0 <= normalizedRotation (rotation st) < 360
  /\ exists i : Z,
      selectedCard (handleConfirm settings st) = Some i
      /\ i = centeredCardIndex (rotation st) (cardAmount settings)
      /\ (0 <= i < cardAmount settings)%Z
      /\ isMoving (handleConfirm settings st) = false.
Proof.
  intros Hn. split; [apply normalizedRotation_range |].
  eexists. split; [reflexivity |]. split; [reflexivity |].
  split; [| reflexivity].
  apply centeredCardIndex_range. lia.
Qed.

Lemma confirm_index_in_range_witness :
  0 <= normalizedRotation 0 < 360
  /\ exists i : Z,
      selectedCard (handleConfirm defaultSettings initialState) = Some i
      /\ i = centeredCardIndex 0 10
      /\ (0 <= i < 10)%Z
      /\ isMoving (handleConfirm defaultSettings initialState) = false.
Proof.
  apply (confirm_index_in_range defaultSettings initialState).
  simpl. lia.
Defined.


(** The model at work: at 350 degrees with ten cards the rounding reaches
    ten and the remainder wraps it to card 0. *)
Example centeredCardIndex_350 : centeredCardIndex 350 10 = 0%Z.
Proof.
  unfold centeredCardIndex, normalizedRotation.
  rem_360 350 0%Z 350.
  rem_360 (350 + 360) 1%Z 350.
  unfold JS.Math_round.
  rewrite (Zfloor_eq 10); [reflexivity | simpl; lra].
Qed.

(** A rotation to the left: -10 degrees is 350 degrees, card 0. *)
Example centeredCardIndex_minus_10 : centeredCardIndex (-10) 10 = 0%Z.
Proof.
  unfold centeredCardIndex, normalizedRotation.
  rem_360 (-10) 0%Z (-10).
  rem_360 (-10 + 360) 0%Z 350.
  unfold JS.Math_round.
  rewrite (Zfloor_eq 10); [reflexivity | simpl; lra].
Qed.

(** At 37 degrees card 1 is the closest. *)
Example centeredCardIndex_37 : centeredCardIndex 37 10 = 1%Z.
Proof.
  unfold centeredCardIndex, normalizedRotation.
  rem_360 37 0%Z 37.
  rem_360 (37 + 360) 1%Z 37.
  unfold JS.Math_round.
  rewrite (Zfloor_eq 1); [reflexivity | simpl; lra].
Qed.

(** At rotation 0, where the page starts, card 0 is confirmed. *)
Example centeredCardIndex_0 : centeredCardIndex 0 4 = 0%Z.
Proof.
  unfold centeredCardIndex, normalizedRotation.
  rem_360 0 0%Z 0.
  rem_360 (0 + 360) 1%Z 0.
  unfold JS.Math_round.
  rewrite (Zfloor_eq 0); [reflexivity | simpl; lra].
Qed.

End Selection.

(** ** The selection in binary64 *)

Section Selection64.

Import Floats.
Local Open Scope Z_scope.








(** The double theta = -225 - 2^-45 and the double 135 - 2^-45, which is
    theta + 360 without error: with four cards the code selects card 1 at
    the first and card 2 at the second, because (theta % 360) + 360 and
    (135 - 2^-45) + 360 round differently. *)
Lemma confirm_periodic_fails_in_binary64 :
  let theta := (- 0x1.c200000000001p+7)%float in
  let turned := 0x1.0dfffffffffffp+7%float in
  Binary64Page.decode theta = Some (- (225 * 2 ^ 45 + 1), -45)
  /\ Binary64Page.decode turned = Some (135 * 2 ^ 45 - 1, -45)
  /\ 135 * 2 ^ 45 - 1 = 360 * 2 ^ 45 + - (225 * 2 ^ 45 + 1)
  /\ Binary64Page.centeredCardIndex theta 4 = 1%float
  /\ Binary64Page.centeredCardIndex turned 4 = 2%float
  /\ Binary64Page.centeredCardIndex turned 4
     <> Binary64Page.centeredCardIndex theta 4.
Proof.
  cbv zeta.
  assert (H1 : Binary64Page.centeredCardIndex (- 0x1.c200000000001p+7)%float 4
               = 1%float) by (vm_compute; reflexivity).
  assert (H2 : Binary64Page.centeredCardIndex 0x1.0dfffffffffffp+7%float 4
               = 2%float) by (vm_compute; reflexivity).
  split; [vm_compute; reflexivity |].
  split; [vm_compute; reflexivity |].
  split; [reflexivity |].
  split; [exact H1 |]. split; [exact H2 |].
  rewrite H1, H2. intros Heq.
  apply FloatAxioms.Leibniz.eqb_spec in Heq. vm_compute in Heq.
  discriminate Heq.
Qed.

End Selection64.

(** ** Placement: depth scale and opacity of a card *)

Section Placement.

Import HomePage.
Local Open Scope R_scope.




Lemma gtb_true (a b : R) : b < a -> JS.gtb a b = true.
Proof. intros H. unfold JS.gtb. destruct (Rlt_dec b a); [reflexivity | contradiction]. Qed.

Lemma gtb_false (a b : R) : a <= b -> JS.gtb a b = false.
Proof. intros H. unfold JS.gtb. destruct (Rlt_dec b a); [lra | reflexivity]. Qed.

Lemma ltb_true (a b : R) : a < b -> JS.ltb a b = true.
Proof. intros H. unfold JS.ltb. destruct (Rlt_dec a b); [reflexivity | contradiction]. Qed.

Lemma ltb_false (a b : R) : b <= a -> JS.ltb a b = false.
Proof. intros H. unfold JS.ltb. destruct (Rlt_dec a b); [lra | reflexivity]. Qed.



End Placement.

(** ** The settings store *)

Section Settings.

Import AppContext Notions.
Local Open Scope Z_scope.

Lemma len_Array_from {A : Type} (n : Z) (f : Z -> A) :
  JS.len (JS.Array_from n f) = Z.max 0 n.
Proof.
  unfold JS.len, JS.Array_from. rewrite length_map, length_seq. lia.
Qed.

Lemma len_app {A : Type} (l1 l2 : list A) :
  JS.len (l1 ++ l2) = JS.len l1 + JS.len l2.
Proof. unfold JS.len. rewrite length_app. lia. Qed.

Lemma len_nonneg {A : Type} (l : list A) : 0 <= JS.len l.
Proof. unfold JS.len. lia. Qed.

(** A slice up to an end inside the array is the prefix of that length. *)
Lemma slice0_prefix {A : Type} (l : list A) (e : Z) :
  0 <= e <= JS.len l -> JS.slice0 l e = firstn (Z.to_nat e) l.
Proof.
  intros He. unfold JS.slice0.
  destruct (e <? 0) eqn:Hneg; [lia |].
  f_equal. lia.
Qed.

Lemma len_slice0 {A : Type} (l : list A) (e : Z) :
  0 <= e <= JS.len l -> JS.len (JS.slice0 l e) = e.
Proof.
  intros He. rewrite slice0_prefix by assumption.
  unfold JS.len in *. rewrite length_firstn. lia.
Qed.

(** The entries synthesized after a list of length [n0]: the positions
    [n0], [n0 + 1], ... as ids. *)
Lemma padding_ids (n0 k : Z) :
  map id (JS.Array_from k (fun i => luckyCard (n0 + i)))
  = map (fun i : nat => n0 + Z.of_nat i) (seq 0 (Z.to_nat k)).
Proof.
  unfold JS.Array_from. rewrite map_map. reflexivity.
Qed.

Lemma padding_id_range (n0 k : Z) (c : CardContent) :
  In c (JS.Array_from k (fun i => luckyCard (n0 + i))) ->
  n0 <= id c < n0 + k
  /\ c = luckyCard (id c).
Proof.
  unfold JS.Array_from. rewrite in_map_iff.
  intros (i & <- & Hi). apply in_seq in Hi. simpl. split; [lia | reflexivity].
Qed.

Lemma padding_ids_NoDup (n0 k : Z) :
  NoDup (map id (JS.Array_from k (fun i => luckyCard (n0 + i)))).
Proof.
  rewrite padding_ids.
  apply Injective_map_NoDup; [| apply seq_NoDup].
  intros a b Hab. lia.
Qed.

Lemma updateSettings_changed_amount (prev : AppSettings)
    (newSettings : PartialSettings) (amount : Z) :
  newCardAmount newSettings = Some amount ->
  amount <> cardAmount prev ->
  updateSettings prev newSettings
  = mkSettings amount (resized (cardContents prev) amount)
      (match newMoveSpeed newSettings with
       | Some v => v | None => moveSpeed prev end)
      (match newDeleteDrawnCard newSettings with
       | Some b => b | None => deleteDrawnCard prev end).
Proof.
  intros Ha Hne. unfold updateSettings, resized. rewrite Ha.
  destruct (Z.eqb_spec amount (cardAmount prev)) as [Heq | _]; [contradiction |].
  simpl. unfold spread, withCardContents. rewrite Ha. simpl.
  destruct (amount >? JS.len (cardContents prev)); reflexivity.
Qed.

Lemma updateSettings_same_amount (prev : AppSettings)
    (newSettings : PartialSettings) :
  (newCardAmount newSettings = None
   \/ newCardAmount newSettings = Some (cardAmount prev)) ->
  updateSettings prev newSettings = spread prev newSettings.
Proof.
  intros [Ha | Ha]; unfold updateSettings; rewrite Ha; [reflexivity |].
  rewrite Z.eqb_refl. reflexivity.
Qed.

Lemma len_resized (prev : list CardContent) (amount : Z) :
  0 <= amount -> JS.len (resized prev amount) = amount.
Proof.
  intros Hn. unfold resized.
  destruct (Z.gtb_spec amount (JS.len prev)) as [Hgt | Hle].
  - rewrite len_app, len_Array_from. lia.
  - apply len_slice0. lia.
Qed.

(** The entries of the previous list that the new amount keeps stay where
    they are. *)
Lemma nth_error_resized (prev : list CardContent) (amount : Z) (i : nat) :
  (i < List.length prev)%nat -> Z.of_nat i < amount ->
  nth_error (resized prev amount) i = nth_error prev i.
Proof.
  intros Hi Ha. unfold resized.
  destruct (Z.gtb_spec amount (JS.len prev)) as [Hgt | Hle].
  - apply nth_error_app1. assumption.
  - rewrite slice0_prefix by lia. rewrite nth_error_firstn.
    destruct (Nat.ltb_spec i (Z.to_nat amount)); [reflexivity | lia].
Qed.

End Settings.

(** ** The length of the card list against the card amount *)

Section Sync.

Import AppContext Notions Fixtures.
Local Open Scope Z_scope.

Lemma defaultSettings_inSync : inSync defaultSettings.
Proof. reflexivity. Qed.

(** C2, as stated, fails.  The settings page, opened on the defaults: move
    the slider to 3, reset to default, save.  The saved settings ask for
    ten cards and hold three.  With the slider moved to 20 instead they ask
    for ten cards and hold twenty, and loading what was saved gives the
    twenty cards back: the load path pads and never cuts.  An update that
    passes a list of cards and no amount stores the list as it is. *)
Lemma settings_out_of_sync :
  let resetAt amount :=
    SettingsPage.handleReset
      (SettingsPage.handleCardAmountChange
         (SettingsPage.open defaultSettings) amount) in
  let savedShort := SettingsPage.handleSave defaultSettings (resetAt 3) in
  let savedLong := SettingsPage.handleSave defaultSettings (resetAt 20) in
  let loadedLong := loadSettings (saveSettings savedLong) in
  let emptied :=
    updateSettings defaultSettings (mkPartial None (Some []) None None) in
  inSync defaultSettings
  /\ (cardAmount savedShort = 10 /\ JS.len (cardContents savedShort) = 3
      /\ ~ inSync savedShort)
  /\ (cardAmount loadedLong = 10 /\ JS.len (cardContents loadedLong) = 20
      /\ ~ inSync loadedLong)
  /\ (cardAmount emptied = 10 /\ JS.len (cardContents emptied) = 0
      /\ ~ inSync emptied).
Proof.
  cbv zeta. unfold inSync.
  repeat split; try reflexivity; vm_compute; discriminate.
Qed.

Lemma loadSettings_saved (s : AppSettings) :
  loadSettings (saveSettings s)
  = if JS.len (cardContents s) <? cardAmount s
    then mkSettings (cardAmount s)
           (cardContents s
            ++ JS.Array_from (cardAmount s - JS.len (cardContents s))
                 (fun i => luckyCard (JS.len (cardContents s) + i)))
           (moveSpeed s) (deleteDrawnCard s)
    else s.
Proof.
  unfold loadSettings, saveSettings, JSON_stringify, parseStored. simpl.
  destruct (JS.len (cardContents s) <? cardAmount s); reflexivity.
Qed.

(** C2, amended.  An update whose amount is not negative and differs from
    the current one leaves as many cards as the new amount: a smaller
    amount keeps the leading cards of the previous list, a larger one
    appends synthesized cards whose ids are the positions they take.  An
    update that leaves the amount as it is keeps the length when it passes
    no list of cards, and stores a passed list as it is.  Loading pads a
    stored list that is shorter than the stored amount and leaves any other
    as stored. *)
Theorem settings_in_sync_after_resize :
  (forall prev newSettings amount,
      newCardAmount newSettings = Some amount ->
      amount <> cardAmount prev ->
      0 <= amount ->
      inSync (updateSettings prev newSettings)
      /\ cardAmount (updateSettings prev newSettings) = amount
      /\ (amount <= JS.len (cardContents prev) ->
          cardContents (updateSettings prev newSettings)
          = firstn (Z.to_nat amount) (cardContents prev))
      /\ (JS.len (cardContents prev) < amount ->
          exists added,
            cardContents (updateSettings prev newSettings)
            = cardContents prev ++ added
            /\ added
               = map (fun i : nat =>
                        luckyCard (JS.len (cardContents prev) + Z.of_nat i))
                     (seq 0 (Z.to_nat (amount - JS.len (cardContents prev))))
            /\ map id added
               = map (fun i : nat => JS.len (cardContents prev) + Z.of_nat i)
                     (seq 0 (Z.to_nat (amount - JS.len (cardContents prev))))
            /\ NoDup (map id added)))
  /\ (forall prev newSettings,
      (newCardAmount newSettings = None
       \/ newCardAmount newSettings = Some (cardAmount prev)) ->
      cardAmount (updateSettings prev newSettings) = cardAmount prev
      /\ (newCardContents newSettings = None ->
          cardContents (updateSettings prev newSettings) = cardContents prev)
      /\ (forall passed,
          newCardContents newSettings = Some passed ->
          cardContents (updateSettings prev newSettings) = passed))
  /\ (forall s,
      JS.len (cardContents s) < cardAmount s ->
      inSync (loadSettings (saveSettings s))
      /\ cardAmount (loadSettings (saveSettings s)) = cardAmount s
      /\ cardContents (loadSettings (saveSettings s))
         = cardContents s
           ++ map (fun i : nat =>
                     luckyCard (JS.len (cardContents s) + Z.of_nat i))
                  (seq 0 (Z.to_nat (cardAmount s - JS.len (cardContents s)))))
  /\ (forall s,
      cardAmount s <= JS.len (cardContents s) ->
      loadSettings (saveSettings s) = s).
Proof.
  split; [| split; [| split]].
  - intros prev newSettings amount Ha Hne Hpos.
    rewrite (updateSettings_changed_amount _ _ _ Ha Hne).
    unfold inSync. simpl.
    split; [apply len_resized; assumption |].
    split; [reflexivity |].
    split.
    + intros Hle. unfold resized.
      destruct (Z.gtb_spec amount (JS.len (cardContents prev))); [lia |].
      apply slice0_prefix. lia.
    + intros Hlt. unfold resized.
      destruct (Z.gtb_spec amount (JS.len (cardContents prev))); [| lia].
      eexists. split; [reflexivity |].
      split; [reflexivity |].
      split; [apply padding_ids | apply padding_ids_NoDup].
  - intros prev newSettings Ha.
    rewrite (updateSettings_same_amount _ _ Ha). unfold spread. simpl.
    split; [destruct Ha as [-> | ->]; reflexivity |].
    split; [intros ->; reflexivity | intros passed ->; reflexivity].
  - intros s Hlt. rewrite loadSettings_saved.
    destruct (Z.ltb_spec (JS.len (cardContents s)) (cardAmount s)); [| lia].
    unfold inSync. simpl.
    split; [rewrite len_app, len_Array_from; lia |].
    split; reflexivity.
  - intros s Hle. rewrite loadSettings_saved.
    destruct (Z.ltb_spec (JS.len (cardContents s)) (cardAmount s)); [lia |].
    reflexivity.
Qed.

(** Four cards cut to three, four cards grown to six, and the stored
    record of six cards out of ten. *)
Lemma settings_in_sync_after_resize_witness :
  cardContents
    (updateSettings poolOfFour (mkPartial (Some 3) None None None))
  = [mkCard 0 "A"; mkCard 1 "B"; mkCard 2 "C"]
  /\ inSync (updateSettings poolOfFour (mkPartial (Some 6) None None None))
  /\ cardContents
       (updateSettings poolOfFour (mkPartial None (Some []) None None))
     = []
  /\ inSync (loadSettings (saveSettings sixOfTen))
  /\ loadSettings (saveSettings fourOfThree) = fourOfThree.
Proof.
  destruct settings_in_sync_after_resize as (Hresize & Hsame & Hpad & Hkeep).
  split.
  { assert (H3 : 3 <> cardAmount poolOfFour) by (simpl; lia).
    destruct (Hresize poolOfFour (mkPartial (Some 3) None None None) 3
                eq_refl H3 ltac:(lia)) as (_ & _ & Hcut & _).
    apply Hcut. vm_compute. discriminate. }
  split.
  { assert (H6 : 6 <> cardAmount poolOfFour) by (simpl; lia).
    apply (Hresize poolOfFour (mkPartial (Some 6) None None None) 6
             eq_refl H6 ltac:(lia)). }
  split.
  { apply (Hsame poolOfFour (mkPartial None (Some []) None None)
             (or_introl eq_refl)).
    reflexivity. }
  split.
  { apply (Hpad sixOfTen). vm_compute. reflexivity. }
  { apply (Hkeep fourOfThree). vm_compute. discriminate. }
Defined.

End Sync.

(** ** An update that changes the amount ignores the passed cards *)

Section Discard.

Import AppContext Notions Fixtures.
Local Open Scope Z_scope.

(** The argument of [updateSettings] with its list of cards replaced. *)
Lemma updateSettings_ignores_contents (prev : AppSettings)
    (newSettings : PartialSettings) (amount : Z)
    (other : option (list CardContent)) :
  newCardAmount newSettings = Some amount ->
  amount <> cardAmount prev ->
  updateSettings prev
    (mkPartial (newCardAmount newSettings) other
               (newMoveSpeed newSettings) (newDeleteDrawnCard newSettings))
  = updateSettings prev newSettings.
Proof.
  intros Ha Hne.
  rewrite (updateSettings_changed_amount _ newSettings amount Ha Hne).
  rewrite (updateSettings_changed_amount _ _ amount); [reflexivity | | assumption].
  simpl. assumption.
Qed.

(** C10.  When [updateSettings] is called with an amount that differs from
    the current one, the cards of the result come from the previous cards
    alone, padded with synthesized entries or cut: a list of cards passed
    in the same call is dropped.  So saving the settings page after an edit
    of a card's text and a change of the amount loses the edit. *)
Theorem updateSettings_discards_passed_contents :
  (forall prev newSettings amount,
      newCardAmount newSettings = Some amount ->
      amount <> cardAmount prev ->
      cardContents (updateSettings prev newSettings)
      = resized (cardContents prev) amount
      /\ forall other,
          updateSettings prev
            (mkPartial (newCardAmount newSettings) other
               (newMoveSpeed newSettings) (newDeleteDrawnCard newSettings))
          = updateSettings prev newSettings)
  /\ (forall settings form,
      SettingsPage.localCardAmount form <> cardAmount settings ->
      cardContents (SettingsPage.handleSave settings form)
      = resized (cardContents settings) (SettingsPage.localCardAmount form))
  /\ (forall settings i t edited amount,
      SettingsPage.handleCardContentChange (SettingsPage.open settings) i t
      = Some edited ->
      3 <= amount <= 20 ->
      amount <> cardAmount settings ->
      cardContents
        (SettingsPage.handleSave settings
           (SettingsPage.handleCardAmountChange edited amount))
      = resized (cardContents settings) amount
      /\ (Z.of_nat i < amount ->
          nth_error
            (cardContents
               (SettingsPage.handleSave settings
                  (SettingsPage.handleCardAmountChange edited amount))) i
          = nth_error (cardContents settings) i)).
Proof.
  split; [| split].
  - intros prev newSettings amount Ha Hne. split.
    + rewrite (updateSettings_changed_amount _ _ _ Ha Hne). reflexivity.
    + intros other. apply (updateSettings_ignores_contents _ _ amount); assumption.
  - intros settings form Hne. unfold SettingsPage.handleSave.
    rewrite (updateSettings_changed_amount _ _ (SettingsPage.localCardAmount form));
      [reflexivity | reflexivity | assumption].
  - intros settings i t edited amount Hedit Hrange Hne.
    assert (Hvalid : JS.Math_max 3 (JS.Math_min 20 amount) = amount)
      by (unfold JS.Math_max, JS.Math_min; lia).
    assert (Hsaved :
              cardContents
                (SettingsPage.handleSave settings
                   (SettingsPage.handleCardAmountChange edited amount))
              = resized (cardContents settings) amount).
    { unfold SettingsPage.handleSave.
      rewrite (updateSettings_changed_amount _ _ amount);
        [reflexivity | simpl; rewrite Hvalid; reflexivity | assumption]. }
    split; [exact Hsaved |].
    intros Hi. rewrite Hsaved. apply nth_error_resized; [| assumption].
    unfold SettingsPage.handleCardContentChange in Hedit. simpl in Hedit.
    apply nth_error_Some.
    destruct (nth_error (cardContents settings) i); [discriminate | discriminate Hedit].
Qed.

(** On the defaults: the first card renamed, the amount moved to nine,
    then saved.  The saved first card has its old text. *)
Lemma updateSettings_discards_passed_contents_witness :
  let edited :=
    SettingsPage.mkLocal 10 1%R
      (SettingsPage.setText defaultCardContents 0 "Jackpot") None in
  let form := SettingsPage.handleCardAmountChange edited 9 in
  SettingsPage.handleCardContentChange
    (SettingsPage.open defaultSettings) 0 "Jackpot" = Some edited
  /\ map text (SettingsPage.localCardContents form)
  = ["Jackpot"; "Lucky Card 2"; "Lucky Card 3"; "Lucky Card 4";
     "Lucky Card 5"; "Lucky Card 6"; "Lucky Card 7"; "Lucky Card 8";
     "Lucky Card 9"]%string
  /\ map text (cardContents (SettingsPage.handleSave defaultSettings form))
     = ["Lucky Card 1"; "Lucky Card 2"; "Lucky Card 3"; "Lucky Card 4";
        "Lucky Card 5"; "Lucky Card 6"; "Lucky Card 7"; "Lucky Card 8";
        "Lucky Card 9"]%string.
Proof.
  cbv zeta. split; [reflexivity |]. split; [vm_compute; reflexivity |].
  destruct updateSettings_discards_passed_contents as (_ & _ & Hedit).
  assert (Hne : 9 <> cardAmount defaultSettings) by (simpl; lia).
  destruct (Hedit defaultSettings 0%nat "Jackpot"%string
              (SettingsPage.mkLocal 10 1%R
                 (SettingsPage.setText defaultCardContents 0 "Jackpot") None)
              9 eq_refl ltac:(lia) Hne) as [Hsaved _].
  rewrite Hsaved. vm_compute. reflexivity.
Defined.

End Discard.

(** ** Loading the stored settings *)

Section Load.

Import AppContext Notions Fixtures.
Local Open Scope Z_scope.

(** C4, as stated, fails.  A stored record that asks for ten cards and
    lists six, with the ids 1 to 6: the four padded cards take the ids 6,
    7, 8 and 9, and the first of them collides with the stored card F,
    whose id is 6. *)
Lemma load_padding_collides :
  cardAmount sixCountedFromOne = 10
  /\ JS.len (cardContents sixCountedFromOne) = 6
  /\ map id (cardContents sixCountedFromOne) = [1; 2; 3; 4; 5; 6]
  /\ cardContents (loadSettings (saveSettings sixCountedFromOne))
     = cardContents sixCountedFromOne
       ++ [mkCard 6 "Lucky Card 7"; mkCard 7 "Lucky Card 8";
           mkCard 8 "Lucky Card 9"; mkCard 9 "Lucky Card 10"]
  /\ map id (cardContents (loadSettings (saveSettings sixCountedFromOne)))
     = [1; 2; 3; 4; 5; 6; 6; 7; 8; 9]
  /\ ~ NoDup (map id (cardContents
                        (loadSettings (saveSettings sixCountedFromOne)))).
Proof.
  repeat split; try reflexivity.
  intros Hnd.
  change (NoDup ([1; 2; 3; 4; 5] ++ 6 :: [6; 7; 8; 9])) in Hnd.
  apply NoDup_remove_2 in Hnd. apply Hnd. simpl. tauto.
Qed.

Lemma defaultCardContents_eq :
  defaultCardContents
  = [mkCard 0 "Lucky Card 1"; mkCard 1 "Lucky Card 2";
     mkCard 2 "Lucky Card 3"; mkCard 3 "Lucky Card 4";
     mkCard 4 "Lucky Card 5"; mkCard 5 "Lucky Card 6";
     mkCard 6 "Lucky Card 7"; mkCard 7 "Lucky Card 8";
     mkCard 8 "Lucky Card 9"; mkCard 9 "Lucky Card 10"].
Proof. reflexivity. Qed.

(** C4, amended.  Loading a stored record that asks for ten cards and lists
    six gives exactly ten cards, the six stored ones followed by
    synthesized cards with the ids 6, 7, 8 and 9; these collide with no
    stored id when no stored card carries an id from 6 to 9, as when the
    stored cards carry their positions 0 to 5.  Loading a saved record of
    seven cards with amount 7 gives the record back.  Stored text that does
    not parse, and an absent item, give the defaults: ten cards Lucky
    Card 1 to Lucky Card 10 with the ids 0 to 9, at speed 1. *)
Theorem load_pads_and_round_trips :
  (forall s,
      cardAmount s = 10 ->
      JS.len (cardContents s) = 6 ->
      cardContents (loadSettings (saveSettings s))
      = cardContents s ++ [luckyCard 6; luckyCard 7; luckyCard 8; luckyCard 9]
      /\ JS.len (cardContents (loadSettings (saveSettings s))) = 10
      /\ cardAmount (loadSettings (saveSettings s)) = 10
      /\ moveSpeed (loadSettings (saveSettings s)) = moveSpeed s
      /\ deleteDrawnCard (loadSettings (saveSettings s)) = deleteDrawnCard s
      /\ ((forall c, In c (cardContents s) -> id c < 6 \/ 9 < id c) ->
          forall c added,
            In c (cardContents s) ->
            In added [luckyCard 6; luckyCard 7; luckyCard 8; luckyCard 9] ->
            id added <> id c)
      /\ (map id (cardContents s) = [0; 1; 2; 3; 4; 5] ->
          map id (cardContents (loadSettings (saveSettings s)))
          = [0; 1; 2; 3; 4; 5; 6; 7; 8; 9]))
  /\ (forall s,
      cardAmount s = 7 ->
      JS.len (cardContents s) = 7 ->
      loadSettings (saveSettings s) = s)
  /\ (forall raw, loadSettings (Some (Garbage raw)) = defaultSettings)
  /\ loadSettings None = defaultSettings
  /\ (cardAmount defaultSettings = 10
      /\ map id (cardContents defaultSettings)
         = [0; 1; 2; 3; 4; 5; 6; 7; 8; 9]
      /\ map text (cardContents defaultSettings)
         = ["Lucky Card 1"; "Lucky Card 2"; "Lucky Card 3"; "Lucky Card 4";
            "Lucky Card 5"; "Lucky Card 6"; "Lucky Card 7"; "Lucky Card 8";
            "Lucky Card 9"; "Lucky Card 10"]%string
      /\ moveSpeed defaultSettings = 1%R).
Proof.
  split; [| split; [| split; [| split]]]; try reflexivity;
    [| | repeat split; reflexivity].
  - intros s Hamount Hlen.
    assert (Hload : loadSettings (saveSettings s)
                    = mkSettings 10
                        (cardContents s
                         ++ [luckyCard 6; luckyCard 7; luckyCard 8; luckyCard 9])
                        (moveSpeed s) (deleteDrawnCard s)).
    { rewrite loadSettings_saved, Hamount, Hlen. reflexivity. }
    rewrite Hload. simpl.
    split; [reflexivity |].
    split; [rewrite len_app, Hlen; reflexivity |].
    split; [reflexivity |]. split; [reflexivity |]. split; [reflexivity |].
    split.
    + intros Hfree c added Hc Hadded.
      specialize (Hfree c Hc).
      simpl in Hadded.
      destruct Hadded as [<- | [<- | [<- | [<- | []]]]]; simpl; lia.
    + intros Hids. rewrite map_app, Hids. reflexivity.
  - intros s Hamount Hlen. rewrite loadSettings_saved, Hamount, Hlen.
    reflexivity.
Qed.

Lemma load_pads_and_round_trips_witness :
  map id (cardContents (loadSettings (saveSettings sixOfTen)))
  = [0; 1; 2; 3; 4; 5; 6; 7; 8; 9]
  /\ JS.len (cardContents (loadSettings (saveSettings sixOfTen))) = 10
  /\ loadSettings (saveSettings sevenCards) = sevenCards.
Proof.
  destruct load_pads_and_round_trips as (Hpad & Hsame & _).
  destruct (Hpad sixOfTen eq_refl eq_refl) as (_ & Hlen & _ & _ & _ & _ & Hids).
  split; [apply Hids; reflexivity |].
  split; [exact Hlen |].
  apply (Hsame sevenCards); reflexivity.
Defined.

End Load.

(** ** Draw Again with removal of the drawn card *)

Section Reset.

Import AppContext Notions Fixtures HomePage.
Local Open Scope Z_scope.

(** The removal is skipped for a pool of three cards or fewer: the floor. *)
Lemma handleReset_floor (settings : AppSettings) (st : State) :
  JS.len (cardContents settings) <= 3 ->
  fst (handleReset settings st) = settings.
Proof.
  intros Hle. unfold handleReset. simpl.
  destruct (selectedCard st); [| reflexivity].
  destruct (Z.gtb_spec (JS.len (cardContents settings)) 3); [lia |].
  rewrite andb_false_r. reflexivity.
Qed.

(** Above the floor the pool in sync loses its last card, whichever card
    was drawn: the list without the drawn card is passed to
    [updateSettings] together with the new amount, and dropped there. *)
Lemma handleReset_cuts_last (settings : AppSettings) (st : State)
    (selected : Z) :
  deleteDrawnCard settings = Some true ->
  selectedCard st = Some selected ->
  inSync settings ->
  3 < cardAmount settings ->
  cardAmount (fst (handleReset settings st)) = cardAmount settings - 1
  /\ cardContents (fst (handleReset settings st))
     = firstn (Z.to_nat (cardAmount settings - 1)) (cardContents settings).
Proof.
  intros Hdel Hsel Hsync Hgt. unfold inSync in Hsync.
  unfold handleReset. simpl. rewrite Hsel, Hdel, Hsync. simpl.
  destruct (Z.gtb_spec (cardAmount settings) 3); [| lia].
  assert (Hmax : JS.Math_max 3 (cardAmount settings - 1) = cardAmount settings - 1)
    by (unfold JS.Math_max; lia).
  rewrite Hmax.
  rewrite (updateSettings_changed_amount _ _ (cardAmount settings - 1));
    [| reflexivity | lia].
  simpl. split; [reflexivity |].
  unfold resized. rewrite Hsync.
  destruct (Z.gtb_spec (cardAmount settings - 1) (cardAmount settings)); [lia |].
  apply slice0_prefix. lia.
Qed.

(** C3, the code against the claim.  A pool of the four cards A, B, C, D
    with removal on; the carousel is confirmed at rotation 0, which selects
    card 0, A; then Draw Again.  The pool that is left has three cards, and
    they are A, B and C: the drawn card A is still in the pool and D is
    gone.  The list that [handleReset] computes, B, C, D, is not the one
    that is stored.  At the floor of three cards the pool stays as it is. *)
Theorem handleReset_keeps_drawn_card :
  let confirmed := handleConfirm poolOfFour initialState in
  let after := fst (handleReset poolOfFour confirmed) in
  selectedCard confirmed = Some 0
  /\ JS.filter_index (fun _ i => negb (i =? 0)) (cardContents poolOfFour)
     = [mkCard 1 "B"; mkCard 2 "C"; mkCard 3 "D"]
  /\ cardAmount after = 3
  /\ cardContents after = [mkCard 0 "A"; mkCard 1 "B"; mkCard 2 "C"]
  /\ In (mkCard 0 "A") (cardContents after)
  /\ fst (handleReset poolOfThree (handleConfirm poolOfThree initialState))
     = poolOfThree.
Proof.
  cbv zeta.
  assert (Hsel : selectedCard (handleConfirm poolOfFour initialState) = Some 0).
  { simpl. rewrite centeredCardIndex_0. reflexivity. }
  destruct (handleReset_cuts_last poolOfFour
              (handleConfirm poolOfFour initialState) 0
              eq_refl Hsel eq_refl ltac:(simpl; lia)) as [Hamount Hcards].
  split; [exact Hsel |].
  split; [reflexivity |].
  split; [exact Hamount |].
  split; [exact Hcards |].
  split; [rewrite Hcards; simpl; tauto |].
  apply handleReset_floor. unfold JS.len. simpl List.length. lia.
Qed.

End Reset.

(** ** The pinch as a trigger *)

Section Pinch.

Import AppContext UseGestureControl HomePage.

(** Whether a frame makes [handleGestureUpdate] call [handleConfirm]. *)
Lemma handleGestureUpdate_calls (settings : AppSettings) (st : State)
    (gesture : GestureData) :
  snd (handleGestureUpdate settings st gesture)
  = if (gestureEnabled st && isNull (selectedCard st)
        && isPinching gesture && negb (lastPinchState st))%bool
    then [CallHandleConfirm] else [].
Proof.
  destruct st as [rot moving sel flipped dir enabled speed last].
  unfold handleGestureUpdate.
  destruct enabled, sel; simpl; try reflexivity.
  destruct (JS.gtb (Rabs (gestureSpeed gesture)) 0.1); simpl;
    destruct (isPinching gesture), last; reflexivity.
Qed.

(** A frame that is looked at leaves the state of its pinch behind. *)
Lemma handleGestureUpdate_lastPinchState (settings : AppSettings) (st : State)
    (gesture : GestureData) :
  gestureEnabled st = true -> selectedCard st = None ->
  lastPinchState (fst (handleGestureUpdate settings st gesture))
  = isPinching gesture
  /\ gestureEnabled (fst (handleGestureUpdate settings st gesture)) = true.
Proof.
  destruct st as [rot moving sel flipped dir enabled speed last].
  simpl. intros -> ->. unfold handleGestureUpdate. simpl.
  destruct (JS.gtb (Rabs (gestureSpeed gesture)) 0.1); simpl;
    destruct (isPinching gesture), last; split; reflexivity.
Qed.

(** Without a call the selection is as before; with a call a card is
    selected. *)
Lemma handleGestureUpdate_selectedCard (settings : AppSettings) (st : State)
    (gesture : GestureData) :
  match snd (handleGestureUpdate settings st gesture) with
  | [] => selectedCard (fst (handleGestureUpdate settings st gesture))
          = selectedCard st
  | _ :: _ => selectedCard (fst (handleGestureUpdate settings st gesture))
              = Some (centeredCardIndex (rotation st) (cardAmount settings))
  end.
Proof.
  destruct st as [rot moving sel flipped dir enabled speed last].
  unfold handleGestureUpdate.
  destruct enabled, sel; simpl; try reflexivity.
  destruct (JS.gtb (Rabs (gestureSpeed gesture)) 0.1); simpl;
    destruct (isPinching gesture), last; reflexivity.
Qed.

(** Once a card is selected no frame calls [handleConfirm], and no frame
    changes the state. *)
Lemma processFrames_selected (settings : AppSettings) (st : State)
    (frames : list GestureData) (i : Z) :
  selectedCard st = Some i ->
  processFrames settings st frames = (st, map (fun _ => []) frames).
Proof.
  intros Hs. induction frames as [| g rest IH]; [reflexivity |].
  simpl. unfold handleGestureUpdate at 1. rewrite Hs.
  rewrite orb_true_r. rewrite IH. reflexivity.
Qed.

Lemma processFrames_cons (settings : AppSettings) (st : State)
    (g : GestureData) (rest : list GestureData) :
  snd (processFrames settings st (g :: rest))
  = snd (handleGestureUpdate settings st g)
    :: snd (processFrames settings (fst (handleGestureUpdate settings st g)) rest).
Proof.
  simpl.
  destruct (handleGestureUpdate settings st g) as [st' calls]. simpl.
  destruct (processFrames settings st' rest) as [st'' log]. reflexivity.
Qed.

(** C6.  With gesture control on and no card selected, five frames whose
    pinch flags are false, false, true, true, false call [handleConfirm]
    once, at the third frame.  A frame calls it only when its pinch flag is
    true and the flag left by the frame before is false; the frame after a
    pinching frame calls nothing, and after a call no later frame calls it
    again.  With gesture control off, or a card selected, a frame changes
    nothing. *)
Theorem pinch_fires_confirm_once (settings : AppSettings) (st : State)
    (g1 g2 g3 g4 g5 : GestureData) :
  gestureEnabled st = true ->
  selectedCard st = None ->
  isPinching g1 = false ->
  isPinching g2 = false ->
  isPinching g3 = true ->
  isPinching g4 = true ->
  isPinching g5 = false ->
  snd (processFrames settings st [g1; g2; g3; g4; g5])
  = [[]; []; [CallHandleConfirm]; []; []]
  /\ (forall st0 g,
      snd (handleGestureUpdate settings st0 g) = [CallHandleConfirm]
      \/ snd (handleGestureUpdate settings st0 g) = [])
  /\ (forall st0 g,
      snd (handleGestureUpdate settings st0 g) = [CallHandleConfirm] ->
      isPinching g = true /\ lastPinchState st0 = false)
  /\ (forall st0 g g',
      gestureEnabled st0 = true -> selectedCard st0 = None ->
      isPinching g = true ->
      snd (handleGestureUpdate settings
             (fst (handleGestureUpdate settings st0 g)) g') = [])
  /\ (forall st0 g frames,
      snd (handleGestureUpdate settings st0 g) = [CallHandleConfirm] ->
      snd (processFrames settings
             (fst (handleGestureUpdate settings st0 g)) frames)
      = map (fun _ => []) frames)
  /\ (forall st0 g,
      gestureEnabled st0 = false \/ selectedCard st0 <> None ->
      handleGestureUpdate settings st0 g = (st0, [])).
Proof.
  intros He Hs H1 H2 H3 H4 H5.
  split; [| split; [| split; [| split; [| split]]]].
  - (* the trace *)
    pose proof (handleGestureUpdate_lastPinchState settings st g1 He Hs)
      as [Hl1 He1].
    pose proof (handleGestureUpdate_selectedCard settings st g1) as Hs1.
    pose proof (handleGestureUpdate_calls settings st g1) as Hc1.
    rewrite He, Hs, H1 in Hc1. simpl in Hc1. rewrite Hc1 in Hs1.
    rewrite Hs in Hs1.
    set (st1 := fst (handleGestureUpdate settings st g1)) in *.
    pose proof (handleGestureUpdate_lastPinchState settings st1 g2 He1 Hs1)
      as [Hl2 He2].
    pose proof (handleGestureUpdate_selectedCard settings st1 g2) as Hs2.
    pose proof (handleGestureUpdate_calls settings st1 g2) as Hc2.
    rewrite He1, Hs1, H2 in Hc2. simpl in Hc2. rewrite Hc2 in Hs2.
    rewrite Hs1 in Hs2.
    set (st2 := fst (handleGestureUpdate settings st1 g2)) in *.
    pose proof (handleGestureUpdate_selectedCard settings st2 g3) as Hs3.
    pose proof (handleGestureUpdate_calls settings st2 g3) as Hc3.
    rewrite He2, Hs2, H3, Hl2, H2 in Hc3. simpl in Hc3. rewrite Hc3 in Hs3.
    set (st3 := fst (handleGestureUpdate settings st2 g3)) in *.
    rewrite processFrames_cons. fold st1. rewrite Hc1.
    rewrite processFrames_cons. fold st2. rewrite Hc2.
    rewrite processFrames_cons. fold st3. rewrite Hc3.
    rewrite (processFrames_selected settings st3 [g4; g5] _ Hs3).
    reflexivity.
  - intros st0 g. rewrite handleGestureUpdate_calls.
    destruct (gestureEnabled st0 && isNull (selectedCard st0)
              && isPinching g && negb (lastPinchState st0))%bool;
      [left | right]; reflexivity.
  - intros st0 g. rewrite handleGestureUpdate_calls.
    destruct (gestureEnabled st0), (isNull (selectedCard st0)),
      (isPinching g), (lastPinchState st0); simpl;
      intros H; try discriminate H; split; reflexivity.
  - intros st0 g g' He0 Hs0 Hp.
    pose proof (handleGestureUpdate_lastPinchState settings st0 g He0 Hs0)
      as [Hl0 _].
    rewrite handleGestureUpdate_calls, Hl0, Hp. simpl.
    rewrite !andb_false_r. reflexivity.
  - intros st0 g frames Hc.
    pose proof (handleGestureUpdate_selectedCard settings st0 g) as Hsel.
    rewrite Hc in Hsel.
    rewrite (processFrames_selected _ _ frames _ Hsel). reflexivity.
  - intros st0 g [Hoff | Hsel]; unfold handleGestureUpdate.
    + rewrite Hoff. reflexivity.
    + destruct (selectedCard st0); [| contradiction].
      rewrite orb_true_r. reflexivity.
Qed.

(** The five frames on the defaults, gesture control switched on. *)
Lemma pinch_fires_confirm_once_witness :
  let enabled := mkState 0 true None None 1 true 0 false in
  let open_hand := mkGesture true 0.5 false 0 in
  let pinch := mkGesture true 0.5 true 0 in
  snd (processFrames defaultSettings enabled
         [open_hand; open_hand; pinch; pinch; open_hand])
  = [[]; []; [CallHandleConfirm]; []; []].
Proof.
  cbv zeta.
  apply (pinch_fires_confirm_once defaultSettings
           (mkState 0 true None None 1 true 0 false)
           (mkGesture true 0.5 false 0) (mkGesture true 0.5 false 0)
           (mkGesture true 0.5 true 0) (mkGesture true 0.5 true 0)
           (mkGesture true 0.5 false 0));
    reflexivity.
Defined.

End Pinch.

(** ** A frame without a hand *)

Section NoHand.

Import UseGestureControl Notions.
Local Open Scope R_scope.

(** C9, as stated, fails.  The hand was seen in the frame before; the
    canvas is gone, or gives no drawing context; a frame without a hand
    comes in.  The callback returns at its guard: no gesture is handed on,
    and the stored gesture still says that a hand is detected. *)
Lemma no_hand_frame_dropped :
  let prior := mkGesture true 0.9 true 0.8 in
  let blind := mkCanvas 640 480 false in
  handDetected (currentGesture (mkHook None prior)) = true
  /\ onResults (mkHook None prior) (mkResults (Some [])) = Dropped
  /\ onResults (mkHook None prior) (mkResults None) = Dropped
  /\ onResults (mkHook (Some blind) prior) (mkResults (Some [])) = Dropped
  /\ (forall h g,
      onResults (mkHook None prior) (mkResults (Some [])) <> Emitted h g).
Proof.
  cbv zeta. repeat split; try reflexivity.
  intros h g H. discriminate H.
Qed.

(** C9, amended.  A frame without a hand that finds the canvas and its
    drawing context gives the gesture with [handDetected] false, palm at
    0.5, speed 0 and no pinch, whatever gesture was stored before, and
    stores it.  A frame that finds no canvas, or no drawing context, is
    dropped whatever it shows. *)
Theorem no_hand_frame_resets (h : Hook) (results : Results) :
  (forall canvas,
      canvasRef h = Some canvas ->
      has2dContext canvas = true ->
      noHand results ->
      exists h',
        onResults h results = Emitted h' initialGesture
        /\ currentGesture h' = initialGesture
        /\ handDetected initialGesture = false
        /\ gestureSpeed initialGesture = 0
        /\ isPinching initialGesture = false
        /\ palmX initialGesture = 0.5)
  /\ (canvasRef h = None
      \/ (exists canvas, canvasRef h = Some canvas
                         /\ has2dContext canvas = false) ->
      onResults h results = Dropped).
Proof.
  split.
  - intros canvas Hc Hctx Hno. unfold onResults. rewrite Hc, Hctx. simpl.
    destruct Hno as [-> | ->]; eexists; repeat split.
  - intros [Hc | (canvas & Hc & Hctx)]; unfold onResults; rewrite Hc;
      [reflexivity | rewrite Hctx; reflexivity].
Qed.

Lemma no_hand_frame_resets_witness :
  let prior := mkGesture true 0.9 true 0.8 in
  let canvas := mkCanvas 640 480 true in
  (exists h',
      onResults (mkHook (Some canvas) prior) (mkResults (Some []))
      = Emitted h' initialGesture)
  /\ onResults (mkHook None prior) (mkResults (Some [])) = Dropped.
Proof.
  cbv zeta.
  destruct (no_hand_frame_resets
              (mkHook (Some (mkCanvas 640 480 true)) (mkGesture true 0.9 true 0.8))
              (mkResults (Some []))) as [Hreset _].
  destruct (Hreset (mkCanvas 640 480 true) eq_refl eq_refl (or_intror eq_refl))
    as (h' & Hout & _).
  destruct (no_hand_frame_resets
              (mkHook None (mkGesture true 0.9 true 0.8))
              (mkResults (Some []))) as [_ Hdrop].
  split; [exists h'; exact Hout | apply Hdrop; left; reflexivity].
Defined.

End NoHand.

(** ** The speed of the carousel from the position of the palm *)

Section GestureSpeed.

Import UseGestureControl.
Local Open Scope R_scope.

Lemma calculateGestureSpeed_dead_zone (palmX : R) :
  0.5 - 0.05 <= palmX <= 0.5 + 0.05 -> calculateGestureSpeed palmX = 0.
Proof.
  intros [Hlo Hhi]. unfold calculateGestureSpeed.
  rewrite gtb_false by assumption. rewrite ltb_false by assumption.
  reflexivity.
Qed.

Lemma calculateGestureSpeed_right (palmX : R) :
  0.5 + 0.05 < palmX ->
  calculateGestureSpeed palmX = Rmin 1 ((palmX - 0.55) / 0.45).
Proof.
  intros H. unfold calculateGestureSpeed. rewrite gtb_true by assumption.
  f_equal. lra.
Qed.

Lemma calculateGestureSpeed_left (palmX : R) :
  palmX < 0.5 - 0.05 ->
  calculateGestureSpeed palmX = - Rmin 1 ((0.45 - palmX) / 0.45).
Proof.
  intros H. unfold calculateGestureSpeed.
  rewrite gtb_false by lra. rewrite ltb_true by assumption.
  f_equal. f_equal. lra.
Qed.

Lemma calculateGestureSpeed_bounds (palmX : R) :
  -1 <= calculateGestureSpeed palmX <= 1.
Proof.
  destruct (Rlt_dec (0.5 + 0.05) palmX) as [Hr | Hr].
  - rewrite calculateGestureSpeed_right by assumption.
    unfold Rmin. destruct (Rle_dec 1 ((palmX - 0.55) / 0.45)); lra.
  - destruct (Rlt_dec palmX (0.5 - 0.05)) as [Hl | Hl].
    + rewrite calculateGestureSpeed_left by assumption.
      unfold Rmin. destruct (Rle_dec 1 ((0.45 - palmX) / 0.45)); lra.
    + rewrite calculateGestureSpeed_dead_zone by lra. lra.
Qed.

End GestureSpeed.

(** ** The same in binary64 *)

Section GestureSpeed64.

Import Floats.
Local Open Scope float_scope.

Lemma SFcompare_antisym (a b : spec_float) :
  SFcompare b a = option_map CompOpp (SFcompare a b).
Proof.
  destruct a as [sa | sa | | sa ma ea], b as [sb | sb | | sb mb eb];
    simpl; try reflexivity;
    try (destruct sa; reflexivity); try (destruct sb; reflexivity);
    try (destruct sa, sb; reflexivity).
  destruct sa, sb; simpl; try reflexivity;
    rewrite (Z.compare_antisym ea eb);
    change (Pos.compare_cont Eq mb ma) with (Pos.compare mb ma);
    change (Pos.compare_cont Eq ma mb) with (Pos.compare ma mb);
    rewrite (Pos.compare_antisym ma mb);
    destruct (ea ?= eb)%Z; simpl; try reflexivity;
    destruct (ma ?= mb)%positive; reflexivity.
Qed.

(** [x <= y] excludes [y < x], also for the values that are not numbers. *)
Lemma leb_not_ltb (x y : float) : (x <=? y) = true -> (y <? x) = false.
Proof.
  rewrite leb_spec, ltb_spec. unfold SFleb, SFltb.
  rewrite (SFcompare_antisym (Prim2SF x) (Prim2SF y)).
  destruct (SFcompare (Prim2SF x) (Prim2SF y)) as [[| |] |]; simpl;
    intros H; try reflexivity; discriminate H.
Qed.

Lemma calculateGestureSpeed64_dead_zone (palmX : float) :
  (Binary64.deadZoneLeft <=? palmX) = true ->
  (palmX <=? Binary64.deadZoneRight) = true ->
  Binary64.calculateGestureSpeed palmX = 0.
Proof.
  intros Hlo Hhi. unfold Binary64.calculateGestureSpeed. cbv zeta.
  unfold Binary64.deadZoneLeft, Binary64.deadZoneRight in *.
  rewrite (leb_not_ltb _ _ Hhi), (leb_not_ltb _ _ Hlo). reflexivity.
Qed.

(** In binary64 the quotient at the right edge of the view is the double
    just below 1, and the clamp leaves it. *)
Lemma calculateGestureSpeed64_right_edge :
  Binary64.calculateGestureSpeed 1 = 0x1.fffffffffffffp-1.
Proof. vm_compute. reflexivity. Qed.

Lemma calculateGestureSpeed64_left_edge :
  Binary64.calculateGestureSpeed 0 = -1.
Proof. vm_compute. reflexivity. Qed.

End GestureSpeed64.

(** ** Dead zone and edges of the view *)

Section DeadZone.

Import Floats.
Import UseGestureControl.

(** C5, as stated, fails on the arithmetic the code runs in.  At palm
    position 1.0 the sum 0.5 + 0.05 is the double 0.55000000000000004, the
    difference 1 - 0.55000000000000004 is 0.44999999999999996, and its
    quotient by 0.45 rounds to 0.99999999999999989, the double just below
    1; [Math.min] leaves it.  The speed is below 1, not 1. *)
Lemma calculateGestureSpeed64_at_one_below_one :
  Binary64.calculateGestureSpeed 1%float <> 1%float
  /\ PrimFloat.ltb (Binary64.calculateGestureSpeed 1%float) 1%float = true.
Proof.
  assert (Hlt : PrimFloat.ltb (Binary64.calculateGestureSpeed 1%float) 1%float
                = true) by (vm_compute; reflexivity).
  split; [| exact Hlt].
  intros Heq. rewrite Heq in Hlt. vm_compute in Hlt. discriminate Hlt.
Qed.

(** C5, amended.  For every palm position within the dead zone, from
    0.5 - 0.05 to 0.5 + 0.05, the speed is exactly 0, in exact arithmetic
    and in binary64.  At palm position 0.0 the speed is exactly -1, in
    both.  At palm position 1.0 the speed is +1 in exact arithmetic; in
    binary64, as the code runs, it is 0.99999999999999989, one unit in the
    last place below 1.  Right of the dead zone the speed is
    (palmX - 0.55) / 0.45 and positive, left of it -(0.45 - palmX) / 0.45
    and negative, each cut at 1 in size: the speed lies in [-1, 1]. *)
Theorem gesture_speed_dead_zone_and_edges :
  (forall palmX : R,
      (0.5 - 0.05 <= palmX <= 0.5 + 0.05)%R ->
      calculateGestureSpeed palmX = 0%R)
  /\ calculateGestureSpeed 0%R = (-1)%R
  /\ calculateGestureSpeed 1%R = 1%R
  /\ (forall palmX : R,
      (0.5 + 0.05 < palmX)%R ->
      calculateGestureSpeed palmX = Rmin 1 ((palmX - 0.55) / 0.45)
      /\ (0 < calculateGestureSpeed palmX)%R
      /\ (palmX <= 1 -> calculateGestureSpeed palmX = (palmX - 0.55) / 0.45)%R
      /\ (1 <= palmX -> calculateGestureSpeed palmX = 1)%R)
  /\ (forall palmX : R,
      (palmX < 0.5 - 0.05)%R ->
      calculateGestureSpeed palmX = (- Rmin 1 ((0.45 - palmX) / 0.45))%R
      /\ (calculateGestureSpeed palmX < 0)%R
      /\ (0 <= palmX -> calculateGestureSpeed palmX = - ((0.45 - palmX) / 0.45))%R
      /\ (palmX <= 0 -> calculateGestureSpeed palmX = -1)%R)
  /\ (forall palmX : R, (-1 <= calculateGestureSpeed palmX <= 1)%R)
  /\ (forall palmX : float,
      PrimFloat.leb Binary64.deadZoneLeft palmX = true ->
      PrimFloat.leb palmX Binary64.deadZoneRight = true ->
      Binary64.calculateGestureSpeed palmX = 0%float)
  /\ Binary64.calculateGestureSpeed 0%float = (-1)%float
  /\ Binary64.calculateGestureSpeed 1%float = 0x1.fffffffffffffp-1%float
  /\ PrimFloat.ltb (Binary64.calculateGestureSpeed 1%float) 1%float = true.
Proof.
  assert (Hright : forall palmX : R,
             (0.5 + 0.05 < palmX)%R ->
             calculateGestureSpeed palmX = Rmin 1 ((palmX - 0.55) / 0.45)
             /\ (0 < calculateGestureSpeed palmX)%R
             /\ (palmX <= 1 ->
                 calculateGestureSpeed palmX = (palmX - 0.55) / 0.45)%R
             /\ (1 <= palmX -> calculateGestureSpeed palmX = 1)%R).
  { intros palmX H. rewrite calculateGestureSpeed_right by assumption.
    split; [reflexivity |]. unfold Rmin.
    destruct (Rle_dec 1 ((palmX - 0.55) / 0.45)); repeat split; intros; lra. }
  assert (Hleft : forall palmX : R,
             (palmX < 0.5 - 0.05)%R ->
             calculateGestureSpeed palmX
             = (- Rmin 1 ((0.45 - palmX) / 0.45))%R
             /\ (calculateGestureSpeed palmX < 0)%R
             /\ (0 <= palmX ->
                 calculateGestureSpeed palmX = - ((0.45 - palmX) / 0.45))%R
             /\ (palmX <= 0 -> calculateGestureSpeed palmX = -1)%R).
  { intros palmX H. rewrite calculateGestureSpeed_left by assumption.
    split; [reflexivity |]. unfold Rmin.
    destruct (Rle_dec 1 ((0.45 - palmX) / 0.45)); repeat split; intros; lra. }
  split; [exact calculateGestureSpeed_dead_zone |].
  split; [apply (Hleft 0%R); lra |].
  split; [apply (Hright 1%R); lra |].
  split; [exact Hright |].
  split; [exact Hleft |].
  split; [exact calculateGestureSpeed_bounds |].
  split; [exact calculateGestureSpeed64_dead_zone |].
  split; [exact calculateGestureSpeed64_left_edge |].
  split; [exact calculateGestureSpeed64_right_edge |].
  vm_compute. reflexivity.
Qed.

(** The palm at the centre, at 0.8 and at 0.2. *)
Lemma gesture_speed_dead_zone_and_edges_witness :
  calculateGestureSpeed 0.5%R = 0%R
  /\ calculateGestureSpeed 0.8%R = ((0.8 - 0.55) / 0.45)%R
  /\ calculateGestureSpeed 0.2%R = (- ((0.45 - 0.2) / 0.45))%R
  /\ Binary64.calculateGestureSpeed 0.5%float = 0%float.
Proof.
  destruct gesture_speed_dead_zone_and_edges
    as (Hdead & _ & _ & Hright & Hleft & _ & Hdead64 & _).
  split; [apply Hdead; lra |].
  split; [apply (Hright 0.8%R); lra |].
  split; [apply (Hleft 0.2%R); lra |].
  apply Hdead64; vm_compute; reflexivity.
Defined.

End DeadZone.

(** ** The hand path at work *)

Section HandPath.

Import UseGestureControl.
Local Open Scope R_scope.

(** A closed hand held at one point on the right of the view: every
    landmark at (0.8, 0.5, 0).  The frame is taken as a pinch, and the
    speed is (0.8 - 0.55) / 0.45. *)
Example closed_hand_on_the_right :
  let point := mkLandmark 0.8 0.5 0 in
  let hand := repeat point 21 in
  let canvas := mkCanvas 640 480 true in
  exists speed,
    onResults (mkHook (Some canvas) initialGesture) (mkResults (Some [hand]))
    = Emitted (mkHook (Some canvas) (mkGesture true speed true
                                       (calculateGestureSpeed speed)))
              (mkGesture true speed true (calculateGestureSpeed speed))
    /\ speed = 0.8
    /\ calculateGestureSpeed speed = (0.8 - 0.55) / 0.45.
Proof.
  cbv zeta.
  assert (Hd : calculateDistance (mkLandmark 0.8 0.5 0) (mkLandmark 0.8 0.5 0)
               = 0).
  { unfold calculateDistance. simpl.
    replace ((0.8 - 0.8) * (0.8 - 0.8) + (0.5 - 0.5) * (0.5 - 0.5)
             + (0 - 0) * (0 - 0)) with 0 by lra.
    apply sqrt_0. }
  assert (Hpinch : detectHandClosure (repeat (mkLandmark 0.8 0.5 0) 21)
                   = Some true).
  { unfold detectHandClosure. simpl. rewrite Hd.
    rewrite ltb_true by lra. reflexivity. }
  eexists. split.
  - unfold onResults. cbn -[gestureOfHand repeat].
    unfold gestureOfHand. rewrite Hpinch. reflexivity.
  - cbn [x]. split; [lra |].
    rewrite calculateGestureSpeed_right by lra. unfold Rmin.
    destruct (Rle_dec 1 (((0.8 + 0.8 + 0.8 + 0.8 + 0.8) / 5 - 0.55) / 0.45)); lra.
Qed.

End HandPath.

(* ================================================================== *)
(** * Part III: further properties of the code *)
(* ================================================================== *)

(** ** Resizing the list of cards *)

Section Resizing.

Import AppContext Notions.
Local Open Scope Z_scope.

Lemma firstn_len_app {A : Type} (l pad : list A) :
  firstn (Z.to_nat (JS.len l)) (l ++ pad) = l.
Proof.
  unfold JS.len. rewrite Nat2Z.id, firstn_app, Nat.sub_diag, firstn_all.
  simpl. apply app_nil_r.
Qed.

(** Growing a list and cutting it back to its length gives the list. *)
Lemma resized_grow_shrink (l : list CardContent) (amount : Z) :
  JS.len l <= amount -> resized (resized l amount) (JS.len l) = l.
Proof.
  intros Hle.
  assert (Hlen : JS.len (resized l amount) = amount)
    by (apply len_resized; pose proof (len_nonneg l); lia).
  unfold resized at 1. rewrite Hlen.
  destruct (Z.gtb_spec (JS.len l) amount) as [Hgt | _]; [lia |].
  rewrite slice0_prefix by (pose proof (len_nonneg l); lia).
  unfold resized.
  destruct (Z.gtb_spec amount (JS.len l)) as [Hgt | Hle'].
  - apply firstn_len_app.
  - assert (amount = JS.len l) by lia. subst amount.
    rewrite slice0_prefix by (pose proof (len_nonneg l); lia).
    unfold JS.len. rewrite Nat2Z.id, !firstn_all. reflexivity.
Qed.

(** Cutting a list and growing it back to its length keeps the leading
    cards and puts synthesized cards in the place of the others. *)
Lemma resized_shrink_grow (l : list CardContent) (amount : Z) :
  0 <= amount < JS.len l ->
  resized (resized l amount) (JS.len l)
  = firstn (Z.to_nat amount) l
    ++ map (fun i : nat => luckyCard (amount + Z.of_nat i))
           (seq 0 (Z.to_nat (JS.len l - amount))).
Proof.
  intros Ha.
  assert (Hcut : resized l amount = firstn (Z.to_nat amount) l).
  { unfold resized.
    destruct (Z.gtb_spec amount (JS.len l)); [lia |].
    apply slice0_prefix. lia. }
  assert (Hlen : JS.len (firstn (Z.to_nat amount) l) = amount).
  { unfold JS.len in *. rewrite length_firstn. lia. }
  rewrite Hcut. unfold resized. rewrite Hlen.
  destruct (Z.gtb_spec (JS.len l) amount); [| lia].
  reflexivity.
Qed.

End Resizing.

Section SettingsRoundTrips.

Import AppContext Notions.
Local Open Scope Z_scope.

(** X1.  Raising the amount and setting it back gives the settings back: the
    cards appended on the way up are the ones cut on the way down. *)
Theorem updateSettings_grow_then_shrink_back (s : AppSettings) (amount : Z)
    (passed1 passed2 : option (list CardContent)) :
  inSync s ->
  cardAmount s < amount ->
  updateSettings
    (updateSettings s (mkPartial (Some amount) passed1 None None))
    (mkPartial (Some (cardAmount s)) passed2 None None)
  = s.
Proof.
  intros Hsync Hlt. unfold inSync in Hsync.
  rewrite (updateSettings_changed_amount s _ amount) by (reflexivity || lia).
  rewrite (updateSettings_changed_amount _ _ (cardAmount s));
    [| reflexivity | simpl; lia].
  simpl.
  replace (resized (resized (cardContents s) amount) (cardAmount s))
    with (cardContents s)
    by (rewrite <- Hsync; symmetry; apply resized_grow_shrink; lia).
  destruct s; reflexivity.
Qed.

Lemma updateSettings_grow_then_shrink_back_witness :
  updateSettings
    (updateSettings defaultSettings (mkPartial (Some 15) None None None))
    (mkPartial (Some 10) None None None)
  = defaultSettings.
Proof.
  apply (updateSettings_grow_then_shrink_back defaultSettings 15 None None).
  - reflexivity.
  - simpl. lia.
Defined.

(** X2.  Lowering the amount and setting it back does not give the cards back:
    the cards from the lower amount on are synthesized anew, with their
    positions as ids and the default texts, whatever they held before. *)
Theorem updateSettings_shrink_then_grow_back (s : AppSettings) (amount : Z)
    (passed1 passed2 : option (list CardContent)) :
  inSync s ->
  0 <= amount < cardAmount s ->
  let s' :=
    updateSettings
      (updateSettings s (mkPartial (Some amount) passed1 None None))
      (mkPartial (Some (cardAmount s)) passed2 None None) in
  cardAmount s' = cardAmount s
  /\ JS.len (cardContents s') = cardAmount s
  /\ (forall i : nat,
      Z.of_nat i < amount ->
      nth_error (cardContents s') i = nth_error (cardContents s) i)
  /\ (forall i : nat,
      amount <= Z.of_nat i < cardAmount s ->
      nth_error (cardContents s') i = Some (luckyCard (Z.of_nat i))).
Proof.
  intros Hsync Ha. unfold inSync in Hsync. cbv zeta.
  rewrite (updateSettings_changed_amount s _ amount) by (reflexivity || lia).
  rewrite (updateSettings_changed_amount _ _ (cardAmount s));
    [| reflexivity | simpl; lia].
  simpl. rewrite <- Hsync in *. rewrite resized_shrink_grow by lia.
  assert (Hlen : List.length (firstn (Z.to_nat amount) (cardContents s))
                 = Z.to_nat amount).
  { rewrite length_firstn. unfold JS.len in *. lia. }
  split; [reflexivity |]. split.
  - rewrite len_app. unfold JS.len at 1. rewrite Hlen.
    unfold JS.len at 1. rewrite length_map, length_seq. lia.
  - split.
    + intros i Hi. rewrite nth_error_app1 by lia.
      rewrite nth_error_firstn.
      destruct (Nat.ltb_spec i (Z.to_nat amount)); [reflexivity | lia].
    + intros i Hi. rewrite nth_error_app2 by lia. rewrite Hlen.
      rewrite nth_error_map, nth_error_seq.
      destruct (Nat.ltb_spec (i - Z.to_nat amount)
                  (Z.to_nat (JS.len (cardContents s) - amount))) as [_ | Hge];
        [| lia].
      simpl. f_equal. f_equal. lia.
Qed.

Lemma updateSettings_shrink_then_grow_back_witness :
  let s' :=
    updateSettings
      (updateSettings Fixtures.poolOfFour (mkPartial (Some 3) None None None))
      (mkPartial (Some 4) None None None) in
  nth_error (cardContents s') 3 = Some (mkCard 3 "Lucky Card 4")
  /\ nth_error (cardContents s') 0 = Some (mkCard 0 "A").
Proof.
  cbv zeta.
  destruct (updateSettings_shrink_then_grow_back Fixtures.poolOfFour 3
              None None eq_refl ltac:(simpl; lia))
    as (_ & _ & Hkeep & Hnew).
  split.
  - apply (Hnew 3%nat). simpl. lia.
  - exact (Hkeep 0%nat ltac:(lia)).
Defined.

End SettingsRoundTrips.

(** ** Loading again, and saving the form *)

Section LoadAndSave.

Import AppContext Notions.
Local Open Scope Z_scope.


(** X4.  Saving the form stores its amount, speed and removal flag; it stores
    its list of cards when the amount is the stored one.  Opening the form
    and saving it untouched changes nothing. *)
Theorem handleSave_stores_form (s : AppSettings) (form : SettingsPage.Local) :
  cardAmount (SettingsPage.handleSave s form)
  = SettingsPage.localCardAmount form
  /\ moveSpeed (SettingsPage.handleSave s form)
     = SettingsPage.localMoveSpeed form
  /\ deleteDrawnCard (SettingsPage.handleSave s form)
     = SettingsPage.localDeleteDrawnCard form
  /\ (SettingsPage.localCardAmount form = cardAmount s ->
      cardContents (SettingsPage.handleSave s form)
      = SettingsPage.localCardContents form)
  /\ SettingsPage.handleSave s (SettingsPage.open s) = s.
Proof.
  assert (Hsame : SettingsPage.localCardAmount form = cardAmount s ->
                  SettingsPage.handleSave s form
                  = mkSettings (cardAmount s)
                      (SettingsPage.localCardContents form)
                      (SettingsPage.localMoveSpeed form)
                      (SettingsPage.localDeleteDrawnCard form)).
  { intros Heq. unfold SettingsPage.handleSave.
    rewrite updateSettings_same_amount by (right; simpl; f_equal; exact Heq).
    unfold spread. simpl. rewrite Heq. reflexivity. }
  destruct (Z.eq_dec (SettingsPage.localCardAmount form) (cardAmount s))
    as [Heq | Hne].
  - rewrite (Hsame Heq). simpl.
    repeat split; try (symmetry; exact Heq).
    unfold SettingsPage.handleSave.
    rewrite updateSettings_same_amount by (right; reflexivity).
    destruct s; reflexivity.
  - unfold SettingsPage.handleSave at 1 2 3.
    rewrite (updateSettings_changed_amount _ _ (SettingsPage.localCardAmount form))
      by (reflexivity || assumption).
    simpl. repeat split; try contradiction.
    unfold SettingsPage.handleSave.
    rewrite updateSettings_same_amount by (right; reflexivity).
    destruct s; reflexivity.
Qed.

(** A text typed on the defaults and saved is the text stored. *)
Lemma handleSave_stores_form_witness :
  let form :=
    SettingsPage.mkLocal 10 1%R
      (SettingsPage.setText defaultCardContents 0 "Jackpot") None in
  nth_error (cardContents (SettingsPage.handleSave defaultSettings form)) 0
  = Some (mkCard 0 "Jackpot").
Proof.
  cbv zeta.
  destruct (handleSave_stores_form defaultSettings
              (SettingsPage.mkLocal 10 1%R
                 (SettingsPage.setText defaultCardContents 0 "Jackpot") None))
    as (_ & _ & _ & Hcards & _).
  rewrite Hcards by reflexivity. reflexivity.
Defined.

End LoadAndSave.

(** ** The handlers of the settings form *)

Section Form.

Import AppContext Notions.
Local Open Scope Z_scope.

(** X5.  Whatever the slider gives and whatever the form held, the amount ends
    in 3..20 and the list has as many cards as the amount; the cards that
    stay keep their place. *)
Theorem handleCardAmountChange_in_sync (l : SettingsPage.Local) (amount : Z) :
  let l' := SettingsPage.handleCardAmountChange l amount in
  3 <= SettingsPage.localCardAmount l' <= 20
  /\ SettingsPage.localCardAmount l' = Z.max 3 (Z.min 20 amount)
  /\ JS.len (SettingsPage.localCardContents l')
     = SettingsPage.localCardAmount l'
  /\ (forall i : nat,
      (i < List.length (SettingsPage.localCardContents l))%nat ->
      Z.of_nat i < SettingsPage.localCardAmount l' ->
      nth_error (SettingsPage.localCardContents l') i
      = nth_error (SettingsPage.localCardContents l) i)
  /\ (forall i : nat,
      JS.len (SettingsPage.localCardContents l) <= Z.of_nat i
      < SettingsPage.localCardAmount l' ->
      nth_error (SettingsPage.localCardContents l') i
      = Some (luckyCard (Z.of_nat i)))
  /\ SettingsPage.localMoveSpeed l' = SettingsPage.localMoveSpeed l
  /\ SettingsPage.localDeleteDrawnCard l' = SettingsPage.localDeleteDrawnCard l.
Proof.
  cbv zeta.
  set (valid := Z.max 3 (Z.min 20 amount)).
  assert (Hvalid : 3 <= valid <= 20) by (unfold valid; lia).
  assert (Hcards : SettingsPage.localCardContents
                     (SettingsPage.handleCardAmountChange l amount)
                   = resized (SettingsPage.localCardContents l) valid)
    by reflexivity.
  assert (Hamount : SettingsPage.localCardAmount
                      (SettingsPage.handleCardAmountChange l amount) = valid)
    by reflexivity.
  rewrite Hcards, Hamount.
  split; [exact Hvalid |]. split; [reflexivity |].
  split; [apply len_resized; lia |].
  split; [intros i Hi Hv; apply nth_error_resized; assumption |].
  split; [| split; reflexivity].
  intros i [Hlo Hhi]. unfold resized.
  destruct (Z.gtb_spec valid (JS.len (SettingsPage.localCardContents l)));
    [| lia].
  unfold JS.len in *.
  rewrite nth_error_app2 by lia.
  unfold JS.Array_from. rewrite nth_error_map, nth_error_seq.
  destruct (Nat.ltb_spec
              (i - List.length (SettingsPage.localCardContents l))
              (Z.to_nat (valid
                         - Z.of_nat (List.length
                                       (SettingsPage.localCardContents l)))));
    [| lia].
  simpl. f_equal. f_equal. lia.
Qed.

Lemma length_setText (l : list CardContent) (i : nat) (t : string) :
  List.length (SettingsPage.setText l i t) = List.length l.
Proof.
  revert i. induction l as [| c rest IH]; intros [| j]; simpl;
    try reflexivity.
  rewrite IH. reflexivity.
Qed.

Lemma map_id_setText (l : list CardContent) (i : nat) (t : string) :
  map id (SettingsPage.setText l i t) = map id l.
Proof.
  revert i. induction l as [| c rest IH]; intros [| j]; simpl;
    try reflexivity.
  rewrite IH. reflexivity.
Qed.

Lemma nth_error_setText_same (l : list CardContent) (i : nat) (t : string)
    (c : CardContent) :
  nth_error l i = Some c ->
  nth_error (SettingsPage.setText l i t) i = Some (mkCard (id c) t).
Proof.
  revert i. induction l as [| c0 rest IH]; intros [| j]; simpl;
    try discriminate.
  - intros H. injection H as ->. reflexivity.
  - apply IH.
Qed.

Lemma nth_error_setText_other (l : list CardContent) (i j : nat) (t : string) :
  i <> j ->
  nth_error (SettingsPage.setText l i t) j = nth_error l j.
Proof.
  revert i j. induction l as [| c0 rest IH]; intros [| i] [| j] Hne; simpl;
    try reflexivity; try contradiction.
  apply IH. congruence.
Qed.

(** X6.  Typing into the input of a card changes the text of that card and
    nothing else: the other cards, every id, the length of the list, the
    amount, the speed and the removal flag stay.  There is no change to
    make exactly at a position beyond the list. *)
Theorem handleCardContentChange_one_text (l : SettingsPage.Local) (i : nat)
    (t : string) :
  (SettingsPage.handleCardContentChange l i t = None
   <-> (List.length (SettingsPage.localCardContents l) <= i)%nat)
  /\ forall l',
      SettingsPage.handleCardContentChange l i t = Some l' ->
      (exists c,
          nth_error (SettingsPage.localCardContents l) i = Some c
          /\ nth_error (SettingsPage.localCardContents l') i
             = Some (mkCard (id c) t))
      /\ (forall j, j <> i ->
          nth_error (SettingsPage.localCardContents l') j
          = nth_error (SettingsPage.localCardContents l) j)
      /\ map id (SettingsPage.localCardContents l')
         = map id (SettingsPage.localCardContents l)
      /\ List.length (SettingsPage.localCardContents l')
         = List.length (SettingsPage.localCardContents l)
      /\ SettingsPage.localCardAmount l' = SettingsPage.localCardAmount l
      /\ SettingsPage.localMoveSpeed l' = SettingsPage.localMoveSpeed l
      /\ SettingsPage.localDeleteDrawnCard l'
         = SettingsPage.localDeleteDrawnCard l.
Proof.
  unfold SettingsPage.handleCardContentChange. split.
  - destruct (nth_error (SettingsPage.localCardContents l) i) eqn:Hnth.
    + split; [discriminate |].
      intros Hle. apply nth_error_None in Hle. congruence.
    + split; [intros _; apply nth_error_None; assumption | reflexivity].
  - intros l' Hsome.
    destruct (nth_error (SettingsPage.localCardContents l) i) as [c |] eqn:Hnth;
      [| discriminate].
    injection Hsome as <-. simpl.
    split; [exists c; split;
            [reflexivity | apply nth_error_setText_same; assumption] |].
    split; [intros j Hj; apply nth_error_setText_other; congruence |].
    split; [apply map_id_setText |].
    split; [apply length_setText |].
    repeat split.
Qed.

Lemma handleCardContentChange_one_text_witness :
  exists l',
    SettingsPage.handleCardContentChange
      (SettingsPage.open defaultSettings) 2 "Free lunch" = Some l'
    /\ nth_error (SettingsPage.localCardContents l') 2
       = Some (mkCard 2 "Free lunch")
    /\ nth_error (SettingsPage.localCardContents l') 3
       = Some (mkCard 3 "Lucky Card 4").
Proof.
  eexists. split; [reflexivity |].
  destruct (handleCardContentChange_one_text
              (SettingsPage.open defaultSettings) 2 "Free lunch")
    as [_ Hchange].
  destruct (Hchange _ eq_refl) as ((c & Hold & Hnew) & Hothers & _).
  split.
  - rewrite Hnew. vm_compute in Hold. injection Hold as <-. reflexivity.
  - rewrite (Hothers 3%nat) by discriminate. reflexivity.
Defined.

End Form.

(** ** Reset to Default, then Save *)

Section ResetThenSave.

Import AppContext Notions.
Local Open Scope Z_scope.

(** X7.  Reset to Default followed by Save stores amount 10, speed 1 and removal
    off.  The cards it stores depend on the amount stored before: if that
    was 10, the default cards, as many as the slider showed before the
    reset; otherwise the cards stored before, padded or cut to 10, so that
    their texts are not reset. *)
Theorem reset_then_save (s : AppSettings) (l : SettingsPage.Local) :
  let saved := SettingsPage.handleSave s (SettingsPage.handleReset l) in
  cardAmount saved = 10
  /\ moveSpeed saved = 1%R
  /\ deleteDrawnCard saved = Some false
  /\ (cardAmount s = 10 ->
      cardContents saved
      = map (fun i : nat => luckyCard (Z.of_nat i))
            (seq 0 (Z.to_nat (SettingsPage.localCardAmount l)))
      /\ JS.len (cardContents saved)
         = Z.max 0 (SettingsPage.localCardAmount l))
  /\ (cardAmount s <> 10 ->
      cardContents saved = resized (cardContents s) 10
      /\ forall i : nat,
          (i < List.length (cardContents s))%nat -> (i < 10)%nat ->
          nth_error (cardContents saved) i = nth_error (cardContents s) i).
Proof.
  cbv zeta.
  destruct (Z.eq_dec 10 (cardAmount s)) as [Heq | Hne].
  - unfold SettingsPage.handleSave.
    rewrite updateSettings_same_amount by (right; simpl; f_equal; exact Heq).
    unfold spread. simpl.
    split; [reflexivity |].
    split; [reflexivity |]. split; [reflexivity |].
    split; [| intros Hne; lia].
    intros _. split; [reflexivity |].
    unfold JS.len, JS.Array_from. rewrite length_map, length_seq. lia.
  - unfold SettingsPage.handleSave.
    rewrite (updateSettings_changed_amount _ _ 10) by (reflexivity || assumption).
    simpl.
    split; [reflexivity |].
    split; [reflexivity |]. split; [reflexivity |].
    split; [intros Heq; lia |].
    intros _. split; [reflexivity |].
    intros i Hi Hi10. apply nth_error_resized; [assumption | lia].
Qed.

(** Four cards A, B, C, D stored; Reset to Default and Save: the four
    texts are still there, followed by six default cards. *)
Lemma reset_then_save_witness :
  map text
    (cardContents
       (SettingsPage.handleSave Fixtures.poolOfFour
          (SettingsPage.handleReset (SettingsPage.open Fixtures.poolOfFour))))
  = ["A"; "B"; "C"; "D"; "Lucky Card 5"; "Lucky Card 6"; "Lucky Card 7";
     "Lucky Card 8"; "Lucky Card 9"; "Lucky Card 10"]%string.
Proof.
  destruct (reset_then_save Fixtures.poolOfFour
              (SettingsPage.open Fixtures.poolOfFour))
    as (_ & _ & _ & _ & Hkept).
  destruct (Hkept ltac:(simpl; lia)) as [Hcards _].
  rewrite Hcards. reflexivity.
Defined.

End ResetThenSave.

(** ** The settings that a session can reach *)

Section Reachable.

Import AppContext Notions Invariants Session.
Local Open Scope Z_scope.

Lemma map_of_nat_shift (a b k : nat) :
  map (fun i : nat => Z.of_nat a + Z.of_nat i) (seq b k)
  = map Z.of_nat (seq (a + b) k).
Proof.
  revert b. induction k as [| k IH]; intros b; [reflexivity |].
  simpl. rewrite IH. f_equal; [lia |].
  f_equal. f_equal. lia.
Qed.

Lemma positional_padded (l : list CardContent) (k : Z) :
  positional l ->
  positional (l ++ JS.Array_from k (fun i => luckyCard (JS.len l + i))).
Proof.
  unfold positional. intros Hl.
  rewrite map_app, Hl, padding_ids, length_app.
  unfold JS.Array_from. rewrite length_map, length_seq.
  unfold JS.len. rewrite map_of_nat_shift, seq_app, map_app, Nat.add_0_r.
  reflexivity.
Qed.

Lemma firstn_of_seq (n a m : nat) :
  firstn n (seq a m) = seq a (Nat.min n m).
Proof.
  revert a m. induction n as [| n IH]; intros a [| m]; simpl;
    try reflexivity.
  rewrite IH. reflexivity.
Qed.

Lemma positional_firstn (l : list CardContent) (n : nat) :
  positional l -> positional (firstn n l).
Proof.
  unfold positional. intros Hl.
  rewrite <- firstn_map, Hl, firstn_map, firstn_of_seq, length_firstn.
  reflexivity.
Qed.

Lemma positional_resized (l : list CardContent) (amount : Z) :
  positional l -> positional (resized l amount).
Proof.
  intros Hl. unfold resized.
  destruct (amount >? JS.len l).
  - apply positional_padded. assumption.
  - unfold JS.slice0. apply positional_firstn. assumption.
Qed.

Lemma positional_default (n : Z) : positional (JS.Array_from n luckyCard).
Proof.
  unfold positional, JS.Array_from.
  rewrite map_map, length_map, length_seq. reflexivity.
Qed.

Lemma positional_setText (l : list CardContent) (i : nat) (t : string) :
  positional l -> positional (SettingsPage.setText l i t).
Proof.
  unfold positional. rewrite map_id_setText, length_setText. trivial.
Qed.

Lemma positional_NoDup (l : list CardContent) :
  positional l -> NoDup (map id l).
Proof.
  unfold positional. intros ->.
  apply Injective_map_NoDup; [| apply seq_NoDup].
  intros a b Hab. lia.
Qed.

Lemma healthy_default : healthy defaultSettings.
Proof.
  unfold healthy, inSync.
  split; [apply positional_default |].
  repeat split; try (vm_compute; discriminate).
  left. reflexivity.
Qed.

Lemma formHealthy_open (s : AppSettings) :
  healthy s -> formHealthy (SettingsPage.open s).
Proof. intros H. exact H. Qed.

Lemma formHealthy_step (l : SettingsPage.Local) (a : FormAction) :
  formHealthy l -> formHealthy (formStep l a).
Proof.
  intros (Hpos & Hamount & Hlen & Hsync).
  destruct a as [amount | i t | speed | checked |]; simpl.
  - (* the slider *)
    set (valid := JS.Math_max 3 (JS.Math_min 20 amount)).
    assert (Hvalid : 3 <= valid <= 20)
      by (unfold valid, JS.Math_max, JS.Math_min; lia).
    assert (Hcards : SettingsPage.localCardContents
                       (SettingsPage.handleCardAmountChange l amount)
                     = resized (SettingsPage.localCardContents l) valid)
      by reflexivity.
    unfold formHealthy. rewrite Hcards. simpl. fold valid.
    rewrite len_resized by lia.
    split; [apply positional_resized; assumption |].
    repeat split; lia.
  - (* a text *)
    unfold SettingsPage.handleCardContentChange.
    destruct (nth_error (SettingsPage.localCardContents l) i);
      [| repeat split; assumption || lia].
    unfold formHealthy. simpl. unfold JS.len in *. rewrite length_setText.
    split; [apply positional_setText; assumption |].
    repeat split; lia || assumption.
  - unfold formHealthy. simpl. repeat split; assumption || lia.
  - unfold formHealthy. simpl. repeat split; assumption || lia.
  - (* the reset *)
    unfold formHealthy, SettingsPage.handleReset. simpl.
    rewrite len_Array_from.
    split; [apply positional_default |].
    repeat split; lia.
Qed.

Lemma formHealthy_run (actions : list FormAction) (l : SettingsPage.Local) :
  formHealthy l -> formHealthy (formRun l actions).
Proof.
  revert l. induction actions as [| a rest IH]; intros l Hl; [exact Hl |].
  simpl. apply IH. apply formHealthy_step. exact Hl.
Qed.

Lemma healthy_save (s : AppSettings) (form : SettingsPage.Local) :
  healthy s -> formHealthy form -> healthy (SettingsPage.handleSave s form).
Proof.
  intros (Hpos & Hamount & Hlen & Hsync) (Fpos & Famount & Flen & Fsync).
  unfold SettingsPage.handleSave.
  destruct (Z.eq_dec (SettingsPage.localCardAmount form) (cardAmount s))
    as [Heq | Hne].
  - rewrite updateSettings_same_amount by (right; simpl; f_equal; exact Heq).
    unfold healthy, inSync, spread. simpl.
    repeat split; assumption || lia.
  - rewrite (updateSettings_changed_amount _ _
               (SettingsPage.localCardAmount form))
      by (reflexivity || assumption).
    unfold healthy, inSync. simpl. rewrite len_resized by lia.
    split; [apply positional_resized; assumption |].
    repeat split; lia.
Qed.

Lemma healthy_drawAgain (s : AppSettings) (page : HomePage.State) :
  healthy s -> healthy (fst (HomePage.handleReset s page)).
Proof.
  intros Hs. pose proof Hs as (Hpos & Hamount & Hlen & Hsync).
  unfold HomePage.handleReset. simpl.
  destruct (HomePage.selectedCard page) as [selected |]; [| exact Hs].
  destruct (HomePage.truthy (deleteDrawnCard s)); [| exact Hs]. simpl.
  destruct (Z.gtb_spec (JS.len (cardContents s)) 3) as [Hgt | _]; [| exact Hs].
  assert (Hnew : JS.Math_max 3 (cardAmount s - 1) = cardAmount s - 1).
  { unfold JS.Math_max. unfold inSync in Hsync. lia. }
  rewrite Hnew.
  rewrite (updateSettings_changed_amount _ _ (cardAmount s - 1))
    by (reflexivity || lia).
  unfold healthy, inSync. simpl. unfold inSync in Hsync.
  rewrite len_resized by lia.
  split; [apply positional_resized; assumption |].
  repeat split; lia.
Qed.

Lemma healthy_reload (s : AppSettings) :
  healthy s -> healthy (loadSettings (saveSettings s)).
Proof.
  intros Hs. pose proof Hs as (Hpos & Hamount & Hlen & Hsync).
  rewrite loadSettings_saved.
  destruct (Z.ltb_spec (JS.len (cardContents s)) (cardAmount s)) as [Hlt | _];
    [| exact Hs].
  unfold healthy, inSync. simpl. rewrite len_app, len_Array_from.
  split; [apply positional_padded; assumption |].
  repeat split; lia.
Qed.

Lemma healthy_step (s : AppSettings) (step : AppStep) :
  healthy s -> healthy (appStep s step).
Proof.
  intros Hs. destruct step as [actions | page |]; simpl.
  - apply healthy_save; [exact Hs |].
    apply formHealthy_run, formHealthy_open, Hs.
  - apply healthy_drawAgain, Hs.
  - apply healthy_reload, Hs.
Qed.

(** X8.  Whatever the user does on the two pages, and however often the app is
    loaded again, settings that start from the defaults (or from any
    settings of that kind) keep cards whose ids are their positions, so no
    two cards share an id; there are never fewer than 3 cards nor more
    than 20, the amount stays within 3..20, and the list is as long as the
    amount unless the amount is 10. *)
Theorem session_keeps_settings_healthy (s : AppSettings)
    (steps : list AppStep) :
  healthy s ->
  healthy (appRun s steps)
  /\ NoDup (map id (cardContents (appRun s steps)))
  /\ 3 <= JS.len (cardContents (appRun s steps)) <= 20
  /\ 3 <= cardAmount (appRun s steps) <= 20.
Proof.
  intros Hs.
  assert (H : healthy (appRun s steps)).
  { revert s Hs. induction steps as [| step rest IH]; intros s Hs; [exact Hs |].
    simpl. apply IH. apply healthy_step. exact Hs. }
  split; [exact H |].
  destruct H as (Hpos & Hamount & Hlen & _).
  split; [apply positional_NoDup; exact Hpos |].
  split; assumption.
Qed.

(** On the defaults: the form reset at 3 cards and saved, a card drawn and
    removed, the app loaded again. *)
Lemma session_keeps_settings_healthy_witness :
  let page := HomePage.mkState 0 false (Some 1) None 1 false 0 false in
  NoDup (map id (cardContents
                   (appRun defaultSettings
                      [SaveSettings [MoveAmountSlider 3; TickDelete true;
                                     PressReset; TickDelete true];
                       DrawAgain page; Reload]))).
Proof.
  cbv zeta.
  apply (session_keeps_settings_healthy defaultSettings).
  unfold healthy, inSync.
  split; [apply positional_default |].
  repeat split; try (vm_compute; discriminate).
  left. reflexivity.
Defined.

End Reachable.

(** ** Where the list and the amount part ways *)

Section InSync.

Import AppContext Notions Invariants Session.
Local Open Scope Z_scope.

Lemma formInSync_step (l : SettingsPage.Local) (a : FormAction) :
  formInSync l -> isReset a = false -> formInSync (formStep l a).
Proof.
  unfold formInSync. intros Hl Ha.
  destruct a as [amount | i t | speed | checked |]; simpl;
    try assumption; try discriminate.
  - change (JS.len (resized (SettingsPage.localCardContents l)
                      (JS.Math_max 3 (JS.Math_min 20 amount)))
            = JS.Math_max 3 (JS.Math_min 20 amount)).
    apply len_resized. unfold JS.Math_max. lia.
  - unfold SettingsPage.handleCardContentChange.
    destruct (nth_error (SettingsPage.localCardContents l) i);
      [| assumption].
    simpl. unfold JS.len in *. rewrite length_setText. assumption.
Qed.

Lemma formInSync_run (actions : list FormAction) (l : SettingsPage.Local) :
  formInSync l -> existsb isReset actions = false ->
  formInSync (formRun l actions).
Proof.
  revert l. induction actions as [| a rest IH]; intros l Hl Hno; [exact Hl |].
  simpl in *. apply orb_false_elim in Hno as [Ha Hrest].
  apply IH; [apply formInSync_step; assumption | assumption].
Qed.

Lemma inSync_step (s : AppSettings) (step : AppStep) :
  inSync s -> pressesReset step = false -> inSync (appStep s step).
Proof.
  unfold inSync. intros Hs Hno.
  destruct step as [actions | page |]; cbn [appStep pressesReset] in *.
  - pose proof (formInSync_run actions (SettingsPage.open s) Hs Hno) as Hform.
    unfold formInSync in Hform.
    set (form := formRun (SettingsPage.open s) actions) in *.
    unfold SettingsPage.handleSave.
    destruct (Z.eq_dec (SettingsPage.localCardAmount form) (cardAmount s))
      as [Heq | Hne].
    + rewrite updateSettings_same_amount by (right; simpl; f_equal; exact Heq).
      unfold spread. simpl. exact Hform.
    + rewrite (updateSettings_changed_amount _ _
                 (SettingsPage.localCardAmount form))
        by (reflexivity || assumption).
      simpl. apply len_resized.
      pose proof (len_nonneg (SettingsPage.localCardContents form)). lia.
  - unfold HomePage.handleReset. simpl.
    destruct (HomePage.selectedCard page) as [selected |]; [| exact Hs].
    destruct (HomePage.truthy (deleteDrawnCard s)); [| exact Hs]. simpl.
    destruct (Z.gtb_spec (JS.len (cardContents s)) 3) as [Hgt | _];
      [| exact Hs].
    assert (Hnew : JS.Math_max 3 (cardAmount s - 1) = cardAmount s - 1)
      by (unfold JS.Math_max; lia).
    rewrite Hnew.
    rewrite (updateSettings_changed_amount _ _ (cardAmount s - 1))
      by (reflexivity || lia).
    simpl. apply len_resized. lia.
  - rewrite loadSettings_saved.
    destruct (Z.ltb_spec (JS.len (cardContents s)) (cardAmount s)); [lia |].
    exact Hs.
Qed.

(** X9.  Settings whose list is as long as the amount stay so through every
    session in which Reset to Default is never pressed: saving the form
    after any moves of the sliders and any typing, drawing again with or
    without removal, and loading again all keep the length equal to the
    amount. *)
Theorem session_without_reset_stays_in_sync (s : AppSettings)
    (steps : list AppStep) :
  inSync s ->
  existsb pressesReset steps = false ->
  inSync (appRun s steps).
Proof.
  revert s. induction steps as [| step rest IH]; intros s Hs Hno; [exact Hs |].
  simpl in *. apply orb_false_elim in Hno as [Hstep Hrest].
  apply IH; [apply inSync_step; assumption | assumption].
Qed.

Lemma session_without_reset_stays_in_sync_witness :
  let page := HomePage.mkState 0 false (Some 1) None 1 false 0 false in
  inSync (appRun defaultSettings
            [SaveSettings [MoveAmountSlider 5; TypeText 0 "x"; TickDelete true];
             DrawAgain page; Reload; SaveSettings [MoveAmountSlider 20]]).
Proof.
  cbv zeta.
  apply (session_without_reset_stays_in_sync defaultSettings); reflexivity.
Defined.

End InSync.

(** ** The arc of the circle that each card owns *)

Section Slots.

Import AppContext HomePage.
Local Open Scope R_scope.






End Slots.

(** ** The confirmed card is the card in front *)

Section Front.

Import AppContext HomePage.
Local Open Scope R_scope.








End Front.

(** ** The circle of cards *)

Section Circle.

Import AppContext HomePage.
Local Open Scope R_scope.







(** X14.  The radius of the carousel is positive for every window and lies
    between 200 and 400 pixels times the factor for the amount of cards,
    which is 1 up to ten cards and a tenth of the amount beyond. *)
Theorem radius_bounds (screenWidth : R) (cardAmount : Z) :
  let factor := Rmax 1 (IZR cardAmount / 10) in
  200 * factor <= radius screenWidth cardAmount <= 400 * factor
  /\ 0 < radius screenWidth cardAmount
  /\ ((cardAmount <= 10)%Z ->
      200 <= radius screenWidth cardAmount <= 400)
  /\ (800 <= screenWidth <= 1600 ->
      radius screenWidth cardAmount = screenWidth * 0.25 * factor).
Proof.
  cbv zeta. unfold radius.
  set (factor := Rmax 1 (IZR cardAmount / 10)).
  assert (Hf : 1 <= factor) by (unfold factor; apply Rmax_l).
  assert (Hmain : 200 * factor
                  <= Rmin (400 * factor)
                       (Rmax (200 * factor) (screenWidth * 0.25 * factor))
                  <= 400 * factor).
  { split.
    - apply Rmin_glb; [lra | apply Rmax_l].
    - apply Rmin_l. }
  split; [exact Hmain |]. split; [lra |]. split.
  - intros Hten.
    assert (Hone : factor = 1).
    { unfold factor. apply Rmax_left.
      assert (IZR cardAmount <= 10) by (apply IZR_le in Hten; simpl in Hten; lra).
      lra. }
    rewrite Hone in *. lra.
  - intros Hw.
    rewrite Rmax_right by nra. rewrite Rmin_right by nra. reflexivity.
Qed.

Lemma radius_bounds_witness :
  200 <= radius 1280 10 <= 400 /\ radius 1280 10 = 1280 * 0.25 * Rmax 1 (IZR 10 / 10).
Proof.
  destruct (radius_bounds 1280 10) as (_ & _ & Hten & Hmid).
  split; [apply Hten; lia | apply Hmid; lra].
Defined.

End Circle.

(** ** The size of a card *)

Section CardSize.

Import Motion.
Local Open Scope Z_scope.

(** X15.  A card is never narrower than 120 pixels nor lower than 180, it keeps
    the proportion 2 to 3 for every amount of cards, it does not grow when
    cards are added, and from twenty cards on it has the smallest size. *)
Theorem card_size (cardAmount : Z) :
  120 <= cardWidth cardAmount
  /\ 180 <= cardHeight cardAmount
  /\ 3 * cardWidth cardAmount = 2 * cardHeight cardAmount
  /\ (forall more, cardAmount <= more ->
      cardWidth more <= cardWidth cardAmount
      /\ cardHeight more <= cardHeight cardAmount)
  /\ (20 <= cardAmount ->
      cardWidth cardAmount = 120 /\ cardHeight cardAmount = 180)
  /\ (cardAmount <= 20 ->
      cardWidth cardAmount = 160 - 2 * cardAmount
      /\ cardHeight cardAmount = 240 - 3 * cardAmount).
Proof.
  unfold cardWidth, cardHeight, JS.Math_max.
  repeat split; intros; lia.
Qed.

Lemma card_size_witness :
  cardWidth 10 = 140 /\ cardHeight 10 = 210 /\ cardWidth 20 = 120.
Proof.
  destruct (card_size 10) as (_ & _ & _ & _ & _ & Hlin).
  destruct (Hlin ltac:(lia)) as [Hw Hh].
  destruct (card_size 20) as (_ & _ & _ & _ & Hmin & _).
  destruct (Hmin ltac:(lia)) as [Hw20 _].
  repeat split; assumption.
Defined.

End CardSize.

(** ** The rotation over time *)

Section Rotation.

Import AppContext UseGestureControl HomePage Motion Invariants.
Local Open Scope R_scope.






End Rotation.

(** ** The hand and its landmarks *)

Section Landmarks.

Import UseGestureControl.
Local Open Scope R_scope.

(** A hand of fewer than 21 landmarks makes the closure test throw. *)
Lemma detectHandClosure_short (landmarks : list NormalizedLandmark) :
  (List.length landmarks < 21)%nat -> detectHandClosure landmarks = None.
Proof.
  intros Hlen.
  do 21 (destruct landmarks as [| ? landmarks]; [reflexivity |]).
  simpl in Hlen. lia.
Qed.

Lemma detectHandClosure_full (landmarks : list NormalizedLandmark) :
  (21 <= List.length landmarks)%nat ->
  exists b, detectHandClosure landmarks = Some b.
Proof.
  intros Hlen.
  do 21 (destruct landmarks as [| ? landmarks]; [simpl in Hlen; lia |]).
  eexists. reflexivity.
Qed.

Lemma gestureOfHand_short (landmarks : list NormalizedLandmark) :
  (List.length landmarks < 21)%nat -> gestureOfHand landmarks = None.
Proof.
  intros Hlen. unfold gestureOfHand.
  rewrite (detectHandClosure_short _ Hlen).
  destruct (JS.index landmarks 0), (JS.index landmarks 5),
    (JS.index landmarks 9), (JS.index landmarks 13),
    (JS.index landmarks 17); reflexivity.
Qed.

Lemma gestureOfHand_full (landmarks : list NormalizedLandmark) :
  (21 <= List.length landmarks)%nat ->
  exists palm pinch,
    gestureOfHand landmarks
    = Some (mkGesture true palm pinch (calculateGestureSpeed palm)).
Proof.
  intros Hlen.
  destruct (detectHandClosure_full _ Hlen) as [b Hb].
  unfold gestureOfHand. rewrite Hb.
  do 21 (destruct landmarks as [| ? landmarks]; [simpl in Hlen; lia |]).
  eexists. eexists. reflexivity.
Qed.

(** X17.  The hook asks for 21 landmarks: a first hand with fewer makes
    [onResults] throw, and that is the only way it throws.  A frame that is
    not dropped and does not throw hands on a gesture. *)
Theorem onResults_throws_on_short_hand (h : Hook) (results : Results) :
  (onResults h results = Threw
   <-> exists canvas hand others,
         canvasRef h = Some canvas
         /\ has2dContext canvas = true
         /\ multiHandLandmarks results = Some (hand :: others)
         /\ (List.length hand < 21)%nat)
  /\ (onResults h results = Dropped
      <-> canvasRef h = None
          \/ exists canvas, canvasRef h = Some canvas
                            /\ has2dContext canvas = false).
Proof.
  unfold onResults.
  destruct (canvasRef h) as [canvas |].
  2:{ split; split; try discriminate.
      - intros (c & _ & _ & Hc & _). discriminate Hc.
      - intros _. left. reflexivity.
      - reflexivity. }
  destruct (has2dContext canvas) eqn:Hctx; simpl.
  2:{ split; split; try discriminate.
      - intros (c & _ & _ & Hc & Hc2 & _). injection Hc as <-. congruence.
      - intros _. right. exists canvas. split; [reflexivity | exact Hctx].
      - reflexivity. }
  split.
  - destruct (multiHandLandmarks results) as [[| hand others] |].
    + split; [discriminate |].
      intros (c & hd & o & _ & _ & Hm & _). discriminate Hm.
    + destruct (Nat.lt_ge_cases (List.length hand) 21) as [Hshort | Hfull].
      * rewrite (gestureOfHand_short _ Hshort).
        split; [| reflexivity].
        intros _. exists canvas, hand, others.
        split; [reflexivity |]. split; [exact Hctx |].
        split; [reflexivity | exact Hshort].
      * destruct (gestureOfHand_full _ Hfull) as (palm & pinch & Hg).
        rewrite Hg. split; [discriminate |].
        intros (c & hd & o & _ & _ & Hm & Hlen).
        injection Hm as <- <-. lia.
    + split; [discriminate |].
      intros (c & hd & o & _ & _ & Hm & _). discriminate Hm.
  - split.
    + destruct (multiHandLandmarks results) as [[| hand others] |];
        try discriminate.
      destruct (gestureOfHand hand); discriminate.
    + intros [Hc | (c & Hc & Hc2)]; [discriminate |].
      injection Hc as <-. congruence.
Qed.

(** X18.  What the hook hands on.  Every gesture it emits is the one it stores;
    its speed lies in [-1, 1]; without a hand it is the resting gesture;
    with a hand the speed is the one computed from the palm position.  The
    canvas it leaves has a width and a height. *)
Theorem onResults_emits_bounded_gesture (h h' : Hook) (results : Results)
    (g : GestureData) :
  onResults h results = Emitted h' g ->
  currentGesture h' = g
  /\ -1 <= gestureSpeed g <= 1
  /\ (handDetected g = false -> g = initialGesture)
  /\ (handDetected g = true ->
      gestureSpeed g = calculateGestureSpeed (palmX g)
      /\ exists hand others,
          multiHandLandmarks results = Some (hand :: others)
          /\ (21 <= List.length hand)%nat)
  /\ exists canvas,
      canvasRef h' = Some canvas
      /\ width canvas <> 0%Z /\ height canvas <> 0%Z
      /\ has2dContext canvas = true.
Proof.
  unfold onResults.
  destruct (canvasRef h) as [canvas |]; [| discriminate].
  destruct (has2dContext canvas) eqn:Hctx; simpl; [| discriminate].
  assert (Hcanvas :
            exists c,
              Some (if ((width canvas =? 0)%Z || (height canvas =? 0)%Z)%bool
                    then mkCanvas 640 480 true else canvas) = Some c
              /\ width c <> 0%Z /\ height c <> 0%Z
              /\ has2dContext c = true).
  { eexists. split; [reflexivity |].
    destruct (Z.eqb_spec (width canvas) 0), (Z.eqb_spec (height canvas) 0);
      simpl; repeat split; try discriminate; assumption. }
  assert (Hrest : forall hh gg,
             Emitted (mkHook
                        (Some (if ((width canvas =? 0)%Z
                                   || (height canvas =? 0)%Z)%bool
                               then mkCanvas 640 480 true else canvas))
                        initialGesture) initialGesture
             = Emitted hh gg ->
             currentGesture hh = gg
             /\ -1 <= gestureSpeed gg <= 1
             /\ (handDetected gg = false -> gg = initialGesture)
             /\ (handDetected gg = true ->
                 gestureSpeed gg = calculateGestureSpeed (palmX gg)
                 /\ exists hand others,
                     multiHandLandmarks results = Some (hand :: others)
                     /\ (21 <= List.length hand)%nat)
             /\ exists c,
                 canvasRef hh = Some c
                 /\ width c <> 0%Z /\ height c <> 0%Z
                 /\ has2dContext c = true).
  { intros hh gg Heq. injection Heq as <- <-. simpl.
    split; [reflexivity |]. split; [lra |]. split; [reflexivity |].
    split; [discriminate | exact Hcanvas]. }
  destruct (multiHandLandmarks results) as [[| hand others] |];
    try (apply Hrest).
  destruct (Nat.lt_ge_cases (List.length hand) 21) as [Hshort | Hfull].
  - rewrite (gestureOfHand_short _ Hshort). discriminate.
  - destruct (gestureOfHand_full _ Hfull) as (palm & pinch & Hg).
    rewrite Hg. intros Heq. injection Heq as <- <-. simpl.
    split; [reflexivity |].
    split; [apply calculateGestureSpeed_bounds |].
    split; [discriminate |].
    split; [| exact Hcanvas].
    intros _. split; [reflexivity |].
    exists hand, others. split; [reflexivity | exact Hfull].
Qed.

(** A closed hand at one point on the right of the view. *)
Lemma onResults_emits_bounded_gesture_witness :
  exists h' g,
    onResults (mkHook (Some (mkCanvas 640 480 true)) initialGesture)
              (mkResults (Some [repeat (mkLandmark 0.8 0.5 0) 21]))
    = Emitted h' g
    /\ -1 <= gestureSpeed g <= 1.
Proof.
  destruct closed_hand_on_the_right as (speed & Hout & _).
  eexists. eexists. split; [exact Hout |].
  apply (onResults_emits_bounded_gesture _ _ _ _ Hout).
Defined.

End Landmarks.

(** ** The palm as a control *)

Section PalmControl.

Import AppContext UseGestureControl HomePage Motion Invariants.
Local Open Scope R_scope.


Lemma handleGestureUpdate_cells (settings : AppSettings) (st : State)
    (g : GestureData) :
  gestureEnabled st = true -> selectedCard st = None ->
  let st' := fst (handleGestureUpdate settings st g) in
  gestureSpeedCell st' = gestureSpeed g
  /\ gestureEnabled st' = true
  /\ rotation st' = rotation st
  /\ direction st'
     = if JS.gtb (Rabs (gestureSpeed g)) 0.1
       then (if JS.gtb (gestureSpeed g) 0 then 1%Z else (-1)%Z)
       else direction st.
Proof.
  destruct st as [rot moving sel flipped dir enabled speed last0].
  simpl. intros -> ->. unfold handleGestureUpdate. simpl.
  destruct (JS.gtb (Rabs (gestureSpeed g)) 0.1); simpl;
    destruct (isPinching g), last0; simpl; repeat split.
Qed.

(** X20.  With gesture control on and the carousel turning, a palm right of
    0.595 turns the carousel to the right and a palm left of 0.405 to the
    left; between the two the direction stays as it is, although the speed
    already follows the palm outside 0.45..0.55. *)
Theorem palm_steers_direction (settings : AppSettings) (st : State)
    (g : GestureData) :
  gestureEnabled st = true ->
  selectedCard st = None ->
  gestureSpeed g = calculateGestureSpeed (palmX g) ->
  let st' := fst (handleGestureUpdate settings st g) in
  (0.595 < palmX g -> direction st' = 1%Z)
  /\ (palmX g < 0.405 -> direction st' = (-1)%Z)
  /\ (0.405 <= palmX g <= 0.595 -> direction st' = direction st).
Proof.
  intros He Hs Hg. cbv zeta.
  destruct (handleGestureUpdate_cells settings st g He Hs)
    as (_ & _ & _ & Hdir).
  rewrite Hdir, Hg. clear Hdir.
  split; [| split]; intros Hp.
  - rewrite calculateGestureSpeed_right by lra.
    assert (Hv : 0.1 < Rmin 1 ((palmX g - 0.55) / 0.45)).
    { unfold Rmin. destruct (Rle_dec 1 ((palmX g - 0.55) / 0.45)); lra. }
    rewrite Rabs_pos_eq by lra.
    rewrite gtb_true by lra. rewrite gtb_true by lra. reflexivity.
  - rewrite calculateGestureSpeed_left by lra.
    assert (Hv : 0.1 < Rmin 1 ((0.45 - palmX g) / 0.45)).
    { unfold Rmin. destruct (Rle_dec 1 ((0.45 - palmX g) / 0.45)); lra. }
    rewrite Rabs_left by lra.
    rewrite gtb_true by lra. rewrite gtb_false by lra. reflexivity.
  - assert (Hsmall : Rabs (calculateGestureSpeed (palmX g)) <= 0.1).
    { destruct (Rlt_dec 0.55 (palmX g)) as [Hr | Hr].
      - rewrite calculateGestureSpeed_right by lra.
        unfold Rmin. destruct (Rle_dec 1 ((palmX g - 0.55) / 0.45));
          [lra |].
        rewrite Rabs_pos_eq; lra.
      - destruct (Rlt_dec (palmX g) 0.45) as [Hl | Hl].
        + rewrite calculateGestureSpeed_left by lra.
          unfold Rmin. destruct (Rle_dec 1 ((0.45 - palmX g) / 0.45));
            [lra |].
          rewrite Rabs_left1; lra.
        + rewrite calculateGestureSpeed_dead_zone by lra.
          rewrite Rabs_R0. lra. }
    rewrite gtb_false by exact Hsmall. reflexivity.
Qed.

Lemma palm_steers_direction_witness :
  let listening := mkState 0 true None None (-1) true 0 false in
  let g := mkGesture true 0.8 false (calculateGestureSpeed 0.8) in
  direction (fst (handleGestureUpdate defaultSettings listening g)) = 1%Z.
Proof.
  cbv zeta.
  apply (palm_steers_direction defaultSettings
           (mkState 0 true None None (-1) true 0 false)
           (mkGesture true 0.8 false (calculateGestureSpeed 0.8))
           eq_refl eq_refl eq_refl).
  simpl. lra.
Defined.




End PalmControl.

Section PalmControlWitness.

Import UseGestureControl.
Local Open Scope R_scope.


End PalmControlWitness.

(** ** The states of the home page *)

Section PageStates.

Import AppContext UseGestureControl HomePage Motion Invariants.
Local Open Scope R_scope.

(** X22.  The direction is right or left, 1 or -1, and every handler of the page
    keeps it so: the gesture, the pointer, the touch, the confirmation, the
    click on a card, Draw Again and the animation frame. *)
Theorem direction_stays_left_or_right (st : State) :
  directed st ->
  (forall settings g, directed (fst (handleGestureUpdate settings st g)))
  /\ (forall container clientX,
      directed (handleMouseMove st container clientX))
  /\ (forall container touches st',
      handleTouchMove st container touches = Some st' -> directed st')
  /\ (forall settings, directed (handleConfirm settings st))
  /\ (forall i, directed (handleCardClick st i))
  /\ (forall settings, directed (snd (handleReset settings st)))
  /\ (forall settings t0 t1, directed (fst (animate settings st t0 t1))).
Proof.
  intros Hd.
  assert (Hmouse : forall container clientX,
             directed (handleMouseMove st container clientX)).
  { intros [rect |] clientX; unfold handleMouseMove; [| exact Hd].
    destruct (negb (isMoving st) || gestureEnabled st)%bool; [exact Hd |].
    destruct (JS.ltb (clientX - left rect) 100); [right; reflexivity |].
    destruct (JS.gtb (clientX - left rect) (rectWidth rect - 100));
      [left; reflexivity | exact Hd]. }
  split; [| split; [exact Hmouse | split; [| split; [| split; [| split]]]]].
  - intros settings g. unfold directed in *.
    destruct st as [rot moving sel flipped dir enabled speed last0].
    unfold handleGestureUpdate. simpl in *.
    destruct enabled, sel; simpl; try exact Hd.
    destruct (JS.gtb (Rabs (gestureSpeed g)) 0.1); simpl;
      destruct (isPinching g), last0; simpl; try exact Hd;
      destruct (JS.gtb (gestureSpeed g) 0); auto.
  - intros [rect |] touches st' Ht; unfold handleTouchMove in Ht.
    + destruct (negb (isMoving st) || gestureEnabled st)%bool.
      * injection Ht as <-. exact Hd.
      * destruct touches as [| clientX rest]; [discriminate |].
        injection Ht as <-. exact (Hmouse (Some rect) clientX).
    + injection Ht as <-. exact Hd.
  - intros settings. exact Hd.
  - intros i. unfold handleCardClick.
    destruct (isMoving st || isNull (selectedCard st))%bool; [exact Hd |].
    destruct (optZ_eqb (selectedCard st) i); exact Hd.
  - intros settings. exact Hd.
  - intros settings t0 t1. unfold animate.
    destruct (isMoving st); exact Hd.
Qed.

Lemma direction_stays_left_or_right_witness :
  directed (handleMouseMove initialState (Some (mkRect 0 1000)) 950)
  /\ direction (handleMouseMove initialState (Some (mkRect 0 1000)) 50)
     = (-1)%Z.
Proof.
  destruct (direction_stays_left_or_right initialState (or_introl eq_refl))
    as (_ & Hmouse & _).
  split; [apply Hmouse |].
  unfold handleMouseMove. simpl. rewrite ltb_true by lra. reflexivity.
Defined.

(** X23.  However many frames come in and whatever they show, and whatever the
    state of the page, the frames of one run confirm at most once, and not
    at all when a card is selected already. *)
Theorem frames_confirm_at_most_once (settings : AppSettings) (st : State)
    (frames : list GestureData) :
  (List.length (List.concat (snd (processFrames settings st frames))) <= 1)%nat
  /\ (selectedCard st <> None ->
      List.concat (snd (processFrames settings st frames)) = []).
Proof.
  assert (Hquiet : forall (fs : list GestureData),
             List.concat (map (fun _ : GestureData => @nil Call) fs) = []).
  { induction fs as [| f fs IH]; [reflexivity | exact IH]. }
  split.
  - revert st. induction frames as [| g rest IH]; intros st; [simpl; lia |].
    rewrite processFrames_cons. simpl List.concat. rewrite length_app.
    pose proof (handleGestureUpdate_selectedCard settings st g) as Hsel.
    rewrite handleGestureUpdate_calls in *.
    destruct (gestureEnabled st && isNull (selectedCard st)
              && isPinching g && negb (lastPinchState st))%bool.
    + rewrite (processFrames_selected _ _ rest _ Hsel). simpl snd.
      rewrite Hquiet. simpl. lia.
    + simpl. apply IH.
  - intros Hsel. destruct (selectedCard st) as [i |] eqn:Hs;
      [| contradiction].
    rewrite (processFrames_selected _ _ frames i Hs). simpl. apply Hquiet.
Qed.

Lemma frames_confirm_at_most_once_witness :
  List.concat (snd (processFrames defaultSettings
                 (mkState 0 false (Some 3%Z) None 1%Z true 0 false)
                 [mkGesture true 0.5 true 0; mkGesture true 0.5 false 0;
                  mkGesture true 0.5 true 0]))
  = [].
Proof.
  apply (frames_confirm_at_most_once defaultSettings
           (mkState 0 false (Some 3%Z) None 1%Z true 0 false)).
  discriminate.
Defined.

(** X24.  Draw Again forgets that the hand was closed: with gesture control on,
    the first frame after Draw Again that shows a closed hand confirms
    again, also when the hand has stayed closed since the confirmation. *)
Theorem pinch_held_through_reset_confirms_again
    (settings settings' : AppSettings) (st : State) (g : GestureData) :
  gestureEnabled st = true ->
  isPinching g = true ->
  lastPinchState (snd (handleReset settings st)) = false
  /\ snd (handleGestureUpdate settings' (snd (handleReset settings st)) g)
     = [CallHandleConfirm].
Proof.
  intros He Hp. split; [reflexivity |].
  rewrite handleGestureUpdate_calls. simpl. rewrite He, Hp. reflexivity.
Qed.

Lemma pinch_held_through_reset_confirms_again_witness :
  let pinch := mkGesture true 0.5 true 0 in
  let listening := mkState 0 true None None 1%Z true 0 false in
  let confirmed := fst (handleGestureUpdate defaultSettings listening pinch) in
  lastPinchState confirmed = true
  /\ snd (handleGestureUpdate defaultSettings confirmed pinch) = []
  /\ snd (handleGestureUpdate defaultSettings
            (snd (handleReset defaultSettings confirmed)) pinch)
     = [CallHandleConfirm].
Proof.
  cbv zeta.
  split; [unfold handleGestureUpdate; simpl;
          destruct (JS.gtb (Rabs 0) 0.1); reflexivity |].
  split; [rewrite handleGestureUpdate_calls;
          unfold handleGestureUpdate; simpl;
          destruct (JS.gtb (Rabs 0) 0.1); reflexivity |].
  apply pinch_held_through_reset_confirms_again; [| reflexivity].
  unfold handleGestureUpdate. simpl.
  destruct (JS.gtb (Rabs 0) 0.1); reflexivity.
Defined.

(** X25.  A click reveals or hides the confirmed card and does nothing else.  It
    is ignored while the carousel moves, while no card is confirmed, and on
    every other card; on the confirmed card it turns the card over, and a
    second click turns it back.  Nothing but the flipped card changes. *)
Theorem handleCardClick_flips_confirmed_card (st : State) (i : Z) :
  (isMoving st = true \/ selectedCard st = None \/ selectedCard st <> Some i ->
   handleCardClick st i = st)
  /\ (isMoving st = false -> selectedCard st = Some i ->
      (flippedCard st <> Some i ->
       flippedCard (handleCardClick st i) = Some i)
      /\ (flippedCard st = Some i ->
          flippedCard (handleCardClick st i) = None)
      /\ (flippedCard st = None \/ flippedCard st = Some i ->
          handleCardClick (handleCardClick st i) i = st))
  /\ rotation (handleCardClick st i) = rotation st
  /\ isMoving (handleCardClick st i) = isMoving st
  /\ selectedCard (handleCardClick st i) = selectedCard st
  /\ direction (handleCardClick st i) = direction st.
Proof.
  destruct st as [rot moving sel flipped dir enabled speed last0].
  unfold handleCardClick. simpl.
  split; [| split].
  - intros [-> | [-> | Hne]].
    + reflexivity.
    + destruct moving; reflexivity.
    + destruct moving; [reflexivity |].
      destruct sel as [j |]; [| reflexivity]. simpl.
      destruct (Z.eqb_spec j i) as [-> | _]; [contradiction | reflexivity].
  - intros -> ->. simpl. rewrite Z.eqb_refl.
    split; [| split].
    + intros Hne. destruct flipped as [f |]; [| reflexivity]. simpl.
      destruct (Z.eqb_spec f i) as [-> | _]; [contradiction | reflexivity].
    + intros ->. simpl. rewrite Z.eqb_refl. reflexivity.
    + intros [-> | ->]; simpl; rewrite ?Z.eqb_refl; simpl;
        rewrite ?Z.eqb_refl; reflexivity.
  - destruct moving; [repeat split |].
    destruct sel as [j |]; [| repeat split]. simpl.
    destruct (j =? i)%Z; repeat split.
Qed.

Lemma handleCardClick_flips_confirmed_card_witness :
  let confirmed := handleConfirm defaultSettings initialState in
  flippedCard (handleCardClick confirmed (centeredCardIndex 0 10))
  = Some (centeredCardIndex 0 10)
  /\ handleCardClick initialState 0%Z = initialState.
Proof.
  cbv zeta.
  destruct (handleCardClick_flips_confirmed_card
              (handleConfirm defaultSettings initialState)
              (centeredCardIndex 0 10)) as (_ & Hflip & _).
  destruct (Hflip eq_refl eq_refl) as (Hshow & _).
  destruct (handleCardClick_flips_confirmed_card initialState 0%Z)
    as (Hignored & _).
  split; [apply Hshow; discriminate | apply Hignored; left; reflexivity].
Defined.

End PageStates.

(** ** Draw Again with the drawn card deleted *)

Section DrawAgain.

Import AppContext HomePage Notions Fixtures.
Local Open Scope Z_scope.

(** X26.  With "delete drawn card" on, a card confirmed, and more than 3 cards
    in settings that are in sync, Draw Again shortens the pool by one card,
    and the card that goes is the last of the list, whichever card was
    drawn: every other place keeps its card, so the drawn card stays in the
    pool unless it was the last.  The settings stay in sync. *)
Theorem draw_again_removes_last_card (settings : AppSettings) (st : State)
    (selected : Z) :
  deleteDrawnCard settings = Some true ->
  selectedCard st = Some selected ->
  inSync settings ->
  3 < cardAmount settings ->
  let after := fst (handleReset settings st) in
  cardAmount after = cardAmount settings - 1
  /\ inSync after
  /\ (forall i : nat,
      Z.of_nat i < cardAmount settings - 1 ->
      nth_error (cardContents after) i = nth_error (cardContents settings) i)
  /\ nth_error (cardContents after) (Z.to_nat (cardAmount settings - 1))
     = None.
Proof.
  intros Hdel Hsel Hsync Hmany. cbv zeta.
  destruct (handleReset_cuts_last settings st selected Hdel Hsel Hsync Hmany)
    as [Hamount Hcards].
  unfold inSync in *. rewrite Hamount, Hcards. unfold JS.len in *.
  split; [reflexivity |].
  split; [rewrite length_firstn; lia |].
  split.
  - intros i Hi. rewrite nth_error_firstn.
    destruct (Nat.ltb_spec i (Z.to_nat (cardAmount settings - 1)));
      [reflexivity | lia].
  - apply nth_error_None. rewrite length_firstn. lia.
Qed.

Lemma draw_again_removes_last_card_witness :
  let confirmed := handleConfirm poolOfFour initialState in
  selectedCard confirmed = Some 0
  /\ nth_error (cardContents (fst (handleReset poolOfFour confirmed))) 0
     = nth_error (cardContents poolOfFour) 0.
Proof.
  cbv zeta.
  assert (Hsel : selectedCard (handleConfirm poolOfFour initialState)
                 = Some 0).
  { simpl. rewrite centeredCardIndex_0. reflexivity. }
  split; [exact Hsel |].
  destruct (draw_again_removes_last_card poolOfFour
              (handleConfirm poolOfFour initialState) 0
              eq_refl Hsel eq_refl ltac:(simpl; lia))
    as (_ & _ & Hkept & _).
  apply (Hkept 0%nat). simpl. lia.
Defined.

End DrawAgain.

(** ** From the hand to the card *)

Section HandToCard.

Import AppContext UseGestureControl HomePage.
Local Open Scope R_scope.

Lemma detectHandClosure_thumb_on_index (hand : list NormalizedLandmark)
    (thumb index : NormalizedLandmark) :
  (21 <= List.length hand)%nat ->
  nth_error hand 4 = Some thumb ->
  nth_error hand 8 = Some index ->
  calculateDistance thumb index < 0.06 ->
  detectHandClosure hand = Some true.
Proof.
  intros Hlen H4 H8 Hnear.
  do 21 (destruct hand as [| ? hand]; [simpl in Hlen; lia |]).
  simpl in H4, H8. injection H4 as ->. injection H8 as ->.
  unfold detectHandClosure. simpl.
  rewrite (ltb_true _ _ Hnear). reflexivity.
Qed.

(** X27.  The hook and the page together.  A frame whose first hand has its 21
    landmarks and the tip of the thumb (landmark 4) closer than 0.06 to the
    tip of the index (landmark 8) is handed on as a pinch, whatever the
    other fingers do; a page with gesture control on, no card confirmed, and
    no pinch in the frame before, then confirms the card in front and
    stops. *)
Theorem pinched_hand_confirms_centred_card (h : Hook) (canvas : Canvas)
    (hand : list NormalizedLandmark) (others : list (list NormalizedLandmark))
    (thumb index : NormalizedLandmark) (settings : AppSettings) (st : State) :
  canvasRef h = Some canvas ->
  has2dContext canvas = true ->
  (21 <= List.length hand)%nat ->
  nth_error hand 4 = Some thumb ->
  nth_error hand 8 = Some index ->
  calculateDistance thumb index < 0.06 ->
  gestureEnabled st = true ->
  selectedCard st = None ->
  lastPinchState st = false ->
  exists h' g,
    onResults h (mkResults (Some (hand :: others))) = Emitted h' g
    /\ handDetected g = true
    /\ isPinching g = true
    /\ snd (handleGestureUpdate settings st g) = [CallHandleConfirm]
    /\ selectedCard (fst (handleGestureUpdate settings st g))
       = Some (centeredCardIndex (rotation st) (cardAmount settings))
    /\ isMoving (fst (handleGestureUpdate settings st g)) = false.
Proof.
  intros Hc Hctx Hlen H4 H8 Hnear He Hs Hl.
  pose proof (detectHandClosure_thumb_on_index _ _ _ Hlen H4 H8 Hnear)
    as Hpinch.
  destruct (gestureOfHand_full _ Hlen) as (palm & pinch & Hg).
  assert (Hp : pinch = true).
  { unfold gestureOfHand in Hg. rewrite Hpinch in Hg.
    destruct (JS.index hand 0), (JS.index hand 5), (JS.index hand 9),
      (JS.index hand 13), (JS.index hand 17); simpl in Hg;
      try discriminate Hg.
    destruct (drawConnections hand); simpl in Hg; [| discriminate Hg].
    injection Hg as _ Hp. symmetry. exact Hp. }
  subst pinch.
  eexists. eexists. split.
  - unfold onResults. rewrite Hc, Hctx. cbn -[gestureOfHand].
    rewrite Hg. reflexivity.
  - split; [reflexivity |]. split; [reflexivity |].
    assert (Hcalls : snd (handleGestureUpdate settings st
                            (mkGesture true palm true
                               (calculateGestureSpeed palm)))
                     = [CallHandleConfirm]).
    { rewrite handleGestureUpdate_calls. rewrite He, Hs, Hl. reflexivity. }
    split; [exact Hcalls |].
    pose proof (handleGestureUpdate_selectedCard settings st
                  (mkGesture true palm true (calculateGestureSpeed palm)))
      as Hsel.
    rewrite Hcalls in Hsel. split; [exact Hsel |].
    destruct st as [rot moving sel flipped dir enabled speed last0].
    simpl in He, Hs, Hl. subst. unfold handleGestureUpdate. simpl.
    destruct (JS.gtb (Rabs (calculateGestureSpeed palm)) 0.1); reflexivity.
Qed.

Lemma pinched_hand_confirms_centred_card_witness :
  exists h' g,
    onResults (mkHook (Some (mkCanvas 640 480 true)) initialGesture)
              (mkResults (Some [repeat (mkLandmark 0.8 0.5 0) 21]))
    = Emitted h' g
    /\ selectedCard
         (fst (handleGestureUpdate defaultSettings
                 (mkState 0 true None None 1%Z true 0 false) g))
       = Some (centeredCardIndex 0 10).
Proof.
  assert (Hd : calculateDistance (mkLandmark 0.8 0.5 0) (mkLandmark 0.8 0.5 0)
               < 0.06).
  { unfold calculateDistance. simpl.
    replace ((0.8 - 0.8) * (0.8 - 0.8) + (0.5 - 0.5) * (0.5 - 0.5)
             + (0 - 0) * (0 - 0)) with 0 by lra.
    rewrite sqrt_0. lra. }
  destruct (pinched_hand_confirms_centred_card
              (mkHook (Some (mkCanvas 640 480 true)) initialGesture)
              (mkCanvas 640 480 true)
              (repeat (mkLandmark 0.8 0.5 0) 21) []
              (mkLandmark 0.8 0.5 0) (mkLandmark 0.8 0.5 0)
              defaultSettings (mkState 0 true None None 1%Z true 0 false)
              eq_refl eq_refl ltac:(simpl; lia) eq_refl eq_refl Hd
              eq_refl eq_refl eq_refl)
    as (h' & g & Hout & _ & _ & _ & Hsel & _).
  exists h', g. split; [exact Hout | exact Hsel].
Defined.

End HandToCard.

(** ** The form and the frames at concrete inputs *)

Section FurtherWitnesses.

Import AppContext UseGestureControl.
Local Open Scope Z_scope.

Lemma handleCardAmountChange_in_sync_witness :
  let form := SettingsPage.open defaultSettings in
  SettingsPage.localCardAmount (SettingsPage.handleCardAmountChange form 25)
  = 20
  /\ nth_error (SettingsPage.localCardContents
                  (SettingsPage.handleCardAmountChange form 25)) 12
     = Some (luckyCard 12).
Proof.
  cbv zeta.
  destruct (handleCardAmountChange_in_sync
              (SettingsPage.open defaultSettings) 25)
    as (_ & Hamount & _ & _ & Hnew & _).
  split; [exact Hamount |].
  apply (Hnew 12%nat). rewrite Hamount. unfold JS.len. simpl. lia.
Defined.

Lemma onResults_throws_on_short_hand_witness :
  onResults (mkHook (Some (mkCanvas 640 480 true)) initialGesture)
            (mkResults (Some [repeat (mkLandmark 0.5 0.5 0) 20]))
  = Threw.
Proof.
  apply (onResults_throws_on_short_hand
           (mkHook (Some (mkCanvas 640 480 true)) initialGesture)
           (mkResults (Some [repeat (mkLandmark 0.5 0.5 0) 20]))).
  exists (mkCanvas 640 480 true), (repeat (mkLandmark 0.5 0.5 0) 20), [].
  repeat split. simpl. lia.
Defined.

End FurtherWitnesses.
